(** * nmma.em : prior construction and the SVD training driver

    A shallow embedding of [src/nmma/em/prior.py] and
    [src/nmma/em/create_svdmodel.py].

    Modelling conventions.
    - A Python [float] is idealised as a real number ([R]); arithmetic is
      exact.
    - A name is looked up where it is read.  [create_svdmodel.py] imports
      numpy as [np]; [prior.py] binds no [np], neither at module level nor
      inside its functions, so reading [np] there raises [NameError].
    - A Python [dict] with string keys is a [gmap string _]; subscripting a
      missing key raises [KeyError].
    - A raised exception is the [Raise] outcome of the [Py] type; statements
      run in order and the first exception aborts the rest.
    - Calls into bilby, scipy, healpy, ligo.skymap and the nmma modules that
      are not part of the two files are parameters of the section that needs
      them. *)

From Stdlib Require Import Reals Lra List Ascii.
From stdpp Require Import gmap strings list fin_maps.

Open Scope R_scope.

(** ** Exceptions and outcomes *)

Inductive PyExc : Type :=
  | ZeroDivisionError
  | KeyError (key : string)
  | IndexError
  | NameError (var : string)
  | ValueError (msg : string)
  | AttributeError (attr : string)
  | ExternalError (msg : string).

Inductive Py (A : Type) : Type :=
  | Return (a : A)
  | Raise (e : PyExc).
Arguments Return {A} a.
Arguments Raise {A} e.

(** Sequencing: [x ← c; k] runs [c] and, unless it raised, continues
    with [k]. *)
#[global] Instance py_ret : MRet Py := fun A a => Return a.
#[global] Instance py_bind : MBind Py := fun A B k c =>
  match c with
  | Return a => k a
  | Raise e => Raise e
  end.

Definition raises {A} (c : Py A) : Prop := exists e, c = Raise e.

(** [a / b] on Python floats: a zero divisor raises. *)
Definition py_truediv (a b : R) : Py R :=
  if Req_dec_T b 0 then Raise ZeroDivisionError else Return (a / b).

(** [d[k]] on a dict. *)
Definition py_getitem {V} (d : gmap string V) (k : string) : Py V :=
  match d !! k with
  | Some v => Return v
  | None => Raise (KeyError k)
  end.

(** [l[i]] on a list, for a non-negative index. *)
Definition py_index {V} (l : list V) (i : nat) : Py V :=
  match l !! i with
  | Some v => Return v
  | None => Raise IndexError
  end.

(** ** The conditional inclination prior (prior.py, lines 8-59) *)

Module ConditionalGaussianIotaGivenThetaCore.

(** The attributes the class sets or passes to its base class: the
    reference parameters [mu], [sigma], [minimum], [maximum], the naming
    attributes, and the two attributes of lines 43-44. *)
Record t : Type := mk {
  mu : R;
  sigma : R;
  minimum : R;
  maximum : R;
  name : option string;
  latex_label : option string;
  unit : option string;
  boundary : option string;
  _required_variables : list string;
  N_sigma : R;
  class_name : string
}.

(** [__init__] (lines 20-46); [N_sigma] defaults to 1 at the call site. *)
Definition init (minimum maximum : R) (name : option string) (N_sigma : R)
    (latex_label unit boundary : option string) : t :=
  {| mu := 0;
     sigma := 1;
     minimum := minimum;
     maximum := maximum;
     name := name;
     latex_label := latex_label;
     unit := unit;
     boundary := boundary;
     _required_variables := ["thetaCore"%string];
     N_sigma := N_sigma;
     class_name := "ConditionalGaussianIotaGivenThetaCore" |}.

(** [_condition_function] (lines 48-49):
    [dict(sigma=(1.0 / self.N_sigma) * kwargs[self._required_variables[0]])].
    The left operand of [*] is evaluated first. *)
Definition _condition_function (self : t) (reference_params : gmap string R)
    (kwargs : gmap string R) : Py (gmap string R) :=
  inv ← py_truediv 1 (N_sigma self);
  key ← py_index (_required_variables self) 0;
  theta ← py_getitem kwargs key;
  Return {[ "sigma"%string := inv * theta ]}.

End ConditionalGaussianIotaGivenThetaCore.

(** ** The trapezoidal rule *)

(** [np.trapz(y, x)]: the first argument holds the ordinates, the second
    the abscissas. *)
Fixpoint trapz_sum (y x : list R) : R :=
  match y, x with
  | y0 :: ((y1 :: _) as y'), x0 :: ((x1 :: _) as x') =>
      (x1 - x0) * (y0 + y1) / 2 + trapz_sum y' x'
  | _, _ => 0
  end.

Definition np_trapz (y x : list R) : Py R :=
  if Nat.eqb (length y) (length x) then Return (trapz_sum y x)
  else Raise (ValueError "operands could not be broadcast together").

(** ** Prior entries and prior dictionaries *)

(** The prior classes the module builds or reads.  [Loaded] stands for an
    entry read from the prior file, of which only the attributes read by
    [create_prior_from_args] are kept. *)
Inductive Prior : Type :=
  | Loaded (name : string) (minimum maximum : R)
      (latex_label unit boundary : option string) (peak : option R)
  | Interped (name : option string) (minimum maximum : option R)
      (latex_label : option string) (xx yy : list R)
  | DeltaFunction (name : string) (peak : R) (latex_label : string)
  | ConditionalIota (p : ConditionalGaussianIotaGivenThetaCore.t).

(** The conversion function attached to a prior dictionary. *)
Inductive Conversion : Type :=
  | convert_mtot_mni_function
  | default_conversion.

Inductive PriorDictClass : Type :=
  | CorePriorDict
  | GWPriorDict
  | GWConditionalPriorDict.

Record PriorDict : Type := mkPriorDict {
  dict_class : PriorDictClass;
  entries : gmap string Prior;
  conversion_function : Conversion
}.

Definition set_entry (priors : PriorDict) (key : string) (p : Prior)
    : PriorDict :=
  {| dict_class := dict_class priors;
     entries := <[key := p]> (entries priors);
     conversion_function := conversion_function priors |}.

(** ** Command-line arguments read by prior.py *)

Record Args : Type := mkArgs {
  prior : string;
  Ebv_max : R;
  use_Ebv : bool;
  conditional_gaussian_prior_thetaObs : bool;
  conditional_gaussian_prior_N_sigma : R;
  fits_file : option string;
  ra : option R;
  dec : option R;
  cosiota_node_num : nat
}.

(** Truth value of an optional float: [None] and [0.0] are false. *)
Definition truthy_float (x : option R) : bool :=
  match x with
  | None => false
  | Some v => if Req_dec_T v 0 then false else true
  end.

(** Truth value of an optional string: [None] and [''] are false. *)
Definition truthy_str (s : option string) : bool :=
  match s with
  | None => false
  | Some EmptyString => false
  | Some _ => true
  end.

(** ** The sky-map fit (prior.py, lines 62-128) *)

(** One row of the multi-order sky map, with the columns the source
    names. *)
Record SkyRow : Type := mkSkyRow {
  UNIQ : Z;
  PROBDENSITY : R;
  PROBDENSITY_SAMPLES : list R;
  DISTMU_SAMPLES : list R;
  DISTSIGMA_SAMPLES : list R;
  DISTNORM_SAMPLES : list R
}.

(** Which branch of the [if] on line 75 runs. *)
Inductive Branch : Type :=
  | InputSkyLocation
  | MaximumPosteriorPoint.

Definition position_branch (args : Args) : Branch :=
  if truthy_float (ra args) && truthy_float (dec args)
  then InputSkyLocation else MaximumPosteriorPoint.

Section SkyMapFit.

(** [ligo.skymap.io.read_sky_map(fits_file, moc=True)]. *)
Variable read_sky_map : option string -> Py (list SkyRow).

(** [inclination_prior_from_fit(priors, args)].  The names bound when
    the body runs are those of the module (lines 1-5 and its three
    definitions) and [io], [moc], [interp1d], [norm], [hp] of lines
    63-66; [np] is not among them.  After the sky map is read, the first
    statement of either branch of line 75 that can raise reads [np]:
    [np.deg2rad(ra)] on line 80, [np.argmax(...)] on line 85.  That read
    raises [NameError] and ends the call, so lines 81-128 are never run
    on either branch.  The [print] calls are left out: standard output is
    not part of the state. *)
Definition inclination_prior_from_fit (priors : PriorDict) (args : Args)
    : Py PriorDict :=
  skymap ← read_sky_map (fits_file args);
  match position_branch args with
  | InputSkyLocation => Raise (NameError "np")
  | MaximumPosteriorPoint => Raise (NameError "np")
  end.

End SkyMapFit.

(** ** Prior construction (prior.py, lines 130-194) *)

(** One round of the loop on lines 139-141. *)
Definition fill_linear (param : string) (parameters : gmap string R)
    : Py (gmap string R) :=
  match parameters !! param with
  | Some _ => Return parameters
  | None =>
      log10_value ← py_getitem parameters ("log10_" +:+ param);
      Return (<[param := Rpower 10 log10_value]> parameters)
  end.

Fixpoint for_each_param (params : list string) (parameters : gmap string R)
    : Py (gmap string R) :=
  match params with
  | [] => Return parameters
  | param :: rest =>
      parameters ← fill_linear param parameters;
      for_each_param rest parameters
  end.

(** [convert_mtot_mni] (lines 137-148). *)
Definition convert_mtot_mni (parameters : gmap string R)
    : Py (gmap string R) :=
  parameters ← for_each_param ["mni"; "mtot"; "mrp"]%string parameters;
  mni ← py_getitem parameters "mni";
  mtot ← py_getitem parameters "mtot";
  mni_c ← py_truediv mni mtot;
  let parameters := <["mni_c"%string := mni_c]> parameters in
  xmix ← py_getitem parameters "xmix";
  mtot ← py_getitem parameters "mtot";
  mni ← py_getitem parameters "mni";
  mrp ← py_getitem parameters "mrp";
  let parameters := <["mrp_c"%string := xmix * (mtot - mni) - mrp]> parameters in
  Return parameters.

(** What a prior dictionary does with a sample, by the conversion
    function it carries; the default one of the library is a parameter. *)
Definition apply_conversion (default : gmap string R -> Py (gmap string R))
    (c : Conversion) (parameters : gmap string R) : Py (gmap string R) :=
  match c with
  | convert_mtot_mni_function => convert_mtot_mni parameters
  | default_conversion => default parameters
  end.

(** [min(xx)] and [max(xx)]; an empty sequence raises. *)
Definition py_min (l : list R) : Py R :=
  match l with
  | [] => Raise (ValueError "min() arg is an empty sequence")
  | x :: l' => Return (fold_left Rmin l' x)
  end.

Definition py_max (l : list R) : Py R :=
  match l with
  | [] => Raise (ValueError "max() arg is an empty sequence")
  | x :: l' => Return (fold_left Rmax l' x)
  end.

(** Attributes read on lines 179-184.  An interpolated prior built
    without bounds takes them from the extent of its table. *)
Definition prior_minimum (p : Prior) : Py R :=
  match p with
  | Loaded _ mn _ _ _ _ _ => Return mn
  | Interped _ (Some mn) _ _ _ _ => Return mn
  | Interped _ None _ _ xx _ => py_min xx
  | DeltaFunction _ pk _ => Return pk
  | ConditionalIota p => Return (ConditionalGaussianIotaGivenThetaCore.minimum p)
  end.

Definition prior_maximum (p : Prior) : Py R :=
  match p with
  | Loaded _ _ mx _ _ _ _ => Return mx
  | Interped _ _ (Some mx) _ _ _ => Return mx
  | Interped _ _ None _ xx _ => py_max xx
  | DeltaFunction _ pk _ => Return pk
  | ConditionalIota p => Return (ConditionalGaussianIotaGivenThetaCore.maximum p)
  end.

Definition prior_name (p : Prior) : option string :=
  match p with
  | Loaded n _ _ _ _ _ _ => Some n
  | Interped n _ _ _ _ _ => n
  | DeltaFunction n _ _ => Some n
  | ConditionalIota p => ConditionalGaussianIotaGivenThetaCore.name p
  end.

Definition prior_latex_label (p : Prior) : option string :=
  match p with
  | Loaded _ _ _ l _ _ _ => l
  | Interped _ _ _ l _ _ => l
  | DeltaFunction _ _ l => Some l
  | ConditionalIota p => ConditionalGaussianIotaGivenThetaCore.latex_label p
  end.

Definition prior_unit (p : Prior) : option string :=
  match p with
  | Loaded _ _ _ _ u _ _ => u
  | ConditionalIota p => ConditionalGaussianIotaGivenThetaCore.unit p
  | _ => None
  end.

Definition prior_boundary (p : Prior) : option string :=
  match p with
  | Loaded _ _ _ _ _ b _ => b
  | ConditionalIota p => ConditionalGaussianIotaGivenThetaCore.boundary p
  | _ => None
  end.

(** Lines 132-133. *)
Definition AnBa2022_intersect (model_names : list string) : list string :=
  elements (({[ "AnBa2022_linear"%string; "AnBa2022_log"%string ]}
               : gset string) ∩ list_to_set model_names).

(** Lines 156-171: the Ebv entry. *)
Definition setup_Ebv (priors : PriorDict) (args : Args) : PriorDict :=
  match entries priors !! "Ebv"%string with
  | Some _ => priors
  | None =>
      if (if Rgt_dec (Ebv_max args) 0 then true else false) && use_Ebv args
      then
        let Ebv_c := 1 / (0.5 * Ebv_max args) in
        set_entry priors "Ebv"
          (Interped (Some "Ebv"%string) (Some 0) (Some (Ebv_max args))
             (Some "$E(B-V)$"%string) [0; Ebv_max args] [Ebv_c; 0])
      else
        set_entry priors "Ebv" (DeltaFunction "Ebv" 0 "$E(B-V)$")
  end.

Section CreatePrior.

(** Reading the prior file, done by both dictionary constructors. *)
Variable load_prior_file : string -> Py (gmap string Prior).

Variable read_sky_map : option string -> Py (list SkyRow).

(** Lines 132-154: the base prior load. *)
Definition load_base_prior (model_names : list string) (args : Args)
    : Py PriorDict :=
  if Nat.ltb 0 (length (AnBa2022_intersect model_names)) then
    loaded ← load_prior_file (prior args);
    Return {| dict_class := CorePriorDict; entries := loaded;
              conversion_function := convert_mtot_mni_function |}
  else
    loaded ← load_prior_file (prior args);
    Return {| dict_class := GWPriorDict; entries := loaded;
              conversion_function := default_conversion |}.

(** Lines 173-189: the conditional inclination prior. *)
Definition setup_conditional_inclination (priors : PriorDict) (args : Args)
    : Py PriorDict :=
  if conditional_gaussian_prior_thetaObs args then
    let priors_dict := entries priors in
    original_iota_prior ← py_getitem priors_dict "inclination_EM";
    minimum ← prior_minimum original_iota_prior;
    maximum ← prior_maximum original_iota_prior;
    let name := prior_name original_iota_prior in
    let replacement :=
      ConditionalGaussianIotaGivenThetaCore.init minimum maximum name
        (conditional_gaussian_prior_N_sigma args)
        (prior_latex_label original_iota_prior)
        (prior_unit original_iota_prior)
        (prior_boundary original_iota_prior) in
    let priors_dict :=
      <["inclination_EM"%string := ConditionalIota replacement]> priors_dict in
    Return {| dict_class := GWConditionalPriorDict; entries := priors_dict;
              conversion_function := default_conversion |}
  else Return priors.

(** [create_prior_from_args(model_names, args)].  Line 192 is read as the
    assignment of the call's result; the colon that ends it in the source
    is not modelled. *)
Definition create_prior_from_args (model_names : list string) (args : Args)
    : Py PriorDict :=
  priors ← load_base_prior model_names args;
  let priors := setup_Ebv priors args in
  priors ← setup_conditional_inclination priors args;
  if truthy_str (fits_file args) then
    inclination_prior_from_fit read_sky_map priors args
  else Return priors.

End CreatePrior.

(** ** What the library's distributions denote *)

(** Modelled from the spec: the prior library is not part of the source
    files.  A fixed-value ("degenerate") distribution has its peak as sole
    support point; a table-interpolated distribution has the interval
    between its bounds as support and, as density, the piecewise-linear
    interpolation of its table [(xx, yy)], zero outside the table. *)
Definition in_support (p : Prior) (x : R) : Prop :=
  match p with
  | DeltaFunction _ peak _ => x = peak
  | Interped _ (Some minimum) (Some maximum) _ _ _ => minimum <= x <= maximum
  | Interped _ _ _ _ _ _ => False
  | Loaded _ minimum maximum _ _ _ _ => minimum <= x <= maximum
  | ConditionalIota p =>
      ConditionalGaussianIotaGivenThetaCore.minimum p <= x
      <= ConditionalGaussianIotaGivenThetaCore.maximum p
  end.

Fixpoint interp_table (xx yy : list R) (x : R) : R :=
  match xx, yy with
  | x0 :: ((x1 :: _) as xx'), y0 :: ((y1 :: _) as yy') =>
      if Rle_dec x0 x then
        if Rle_dec x x1 then y0 + (x - x0) * ((y1 - y0) / (x1 - x0))
        else interp_table xx' yy' x
      else 0
  | _, _ => 0
  end.

Definition table_density (p : Prior) (x : R) : R :=
  match p with
  | Interped _ _ _ _ xx yy => interp_table xx yy x
  | _ => 0
  end.

(** ** The training driver (create_svdmodel.py) *)

Record DriverArgs : Type := mkDriverArgs {
  model : string;
  svd_path : option string;
  data_path : option string;
  interpolation_type : string;
  tmin : R;
  tmax : R;
  dt : R;
  svd_ncoeff : Z;
  tensorflow_nepochs : Z;
  filters : string;
  outdir : string;
  plot : bool;
  verbose : bool
}.

(** [s.split(sep)] for a one-character separator. *)
Fixpoint split_on (sep : Ascii.ascii) (s : string) : list string :=
  match s with
  | EmptyString => [EmptyString]
  | String c s' =>
      if Ascii.eqb c sep then EmptyString :: split_on sep s'
      else match split_on sep s' with
           | h :: t => String c h :: t
           | [] => [String c EmptyString]
           end
  end.

(** [str(x)] for an optional string, as an f-string formats it. *)
Definition format_opt (s : option string) : string :=
  match s with
  | Some s => s
  | None => "None"%string
  end.

(** The calls that leave the driver: each is recorded when it is made. *)
Inductive Event : Type :=
  | GlobFiles (pattern : string)
  | ReadFiles (filenames : list string)
  | CallModelFunction (name : string)
  | TrainModel (name : string)
  | LoadLightCurveModel (name : string)
  | PlotComparison.

(** A driver computation: it extends the record of calls and returns or
    raises. *)
Definition Driver (A : Type) : Type := list Event -> Py A * list Event.

#[global] Instance driver_ret : MRet Driver := fun A a log => (Return a, log).

#[global] Instance driver_bind : MBind Driver := fun A B k c log =>
  match c log with
  | (Return a, log') => k a log'
  | (Raise e, log') => (Raise e, log')
  end.

Definition driver_raise {A} (e : PyExc) : Driver A := fun log => (Raise e, log).

(** Perform an outside call: record it, then take its outcome. *)
Definition call {A} (ev : Event) (outcome : Py A) : Driver A :=
  fun log => (outcome, log ++ [ev]).

(** A computation without outside calls. *)
Definition pure {A} (c : Py A) : Driver A := fun log => (c, log).

Section TrainingDriver.

(** Light-curve data, training data and the two model objects. *)
Variables Data TrainingData TrainingModel LightCurveModel : Type.

(** An attribute of the module [model_parameters]. *)
Inductive ModuleAttr : Type :=
  | Function (f : Data -> Py TrainingData)
  | NotAFunction.

(** [model_parameters.__dict__]. *)
Variable model_parameters : gmap string ModuleAttr.
(** [np.arange(start, stop, step)]. *)
Variable np_arange : R -> R -> R -> Py (list R).
(** [glob.glob] and [read_files]. *)
Variable glob_glob : string -> list string.
Variable read_files : list string -> Py Data.
(** The two model constructors. *)
Variable SVDTrainingModel :
  string -> TrainingData -> list R -> list string -> Z -> Z ->
  option string -> string -> Py TrainingModel.
Variable SVDLightCurveModel :
  string -> list R -> option string -> Z -> string -> TrainingModel ->
  Py LightCurveModel.
(** Lines 120-178, the optional comparison plot. *)
Variable plot_comparison :
  DriverArgs -> TrainingData -> TrainingModel -> LightCurveModel ->
  list R -> list string -> Py ().

(** Lines 88-90: the attributes that are functions. *)
Definition MODEL_FUNCTIONS : gmap string (Data -> Py TrainingData) :=
  omap (fun v => match v with Function f => Some f | NotAFunction => None end)
    model_parameters.

(** [main], after the arguments are parsed (lines 84-178). *)
Definition main (args : DriverArgs) : Driver () :=
  sample_times ← pure (np_arange (tmin args) (tmax args + dt args) (dt args));
  let filts := split_on ","%char (filters args) in
  match MODEL_FUNCTIONS !! model args with
  | None =>
      driver_raise
        (ValueError
           (model args +:+ " unknown. Please add to nmma.em.model_parameters"))
  | Some model_function =>
      let pattern := format_opt (data_path args) +:+ "/*.dat" in
      filenames ← call (GlobFiles pattern) (Return (glob_glob pattern));
      data ← call (ReadFiles filenames) (read_files filenames);
      training_data ←
        call (CallModelFunction (model args)) (model_function data);
      training_model ←
        call (TrainModel (model args))
          (SVDTrainingModel (model args) training_data sample_times filts
             (svd_ncoeff args) (tensorflow_nepochs args) (svd_path args)
             (interpolation_type args));
      light_curve_model ←
        call (LoadLightCurveModel (model args))
          (SVDLightCurveModel (model args) sample_times (svd_path args)
             (svd_ncoeff args) (interpolation_type args) training_model);
      if plot args then
        call PlotComparison
          (plot_comparison args training_data training_model
             light_curve_model sample_times filts)
      else mret ()
  end.

End TrainingDriver.

(** ** Definitions used in the statements *)

(** The entry stored by the Ebv step when the base prior has none. *)
Definition Ebv_delta : Prior := DeltaFunction "Ebv" 0 "$E(B-V)$".
Definition Ebv_decay (Ebv_max : R) : Prior :=
  Interped (Some "Ebv"%string) (Some 0) (Some Ebv_max)
    (Some "$E(B-V)$"%string) [0; Ebv_max] [1 / (0.5 * Ebv_max); 0].

(** Membership in the recognized family. *)
Definition AnBa2022_family (m : string) : Prop :=
  m = "AnBa2022_linear"%string \/ m = "AnBa2022_log"%string.

(** The value a linear parameter takes: its own when present, otherwise
    ten to the power of its log10 counterpart. *)
Definition linear_value (parameters : gmap string R) (param : string)
    : option R :=
  match parameters !! param with
  | Some v => Some v
  | None => Rpower 10 <$> parameters !! ("log10_" +:+ param)
  end.

(** A sky map of one pixel, a prior dictionary that holds the distance
    only, and arguments that name a sky-map file. *)
Definition flat_row : SkyRow :=
  {| UNIQ := 4; PROBDENSITY := 1; PROBDENSITY_SAMPLES := [1; 1; 1; 1];
     DISTMU_SAMPLES := [40; 40; 40; 40]; DISTSIGMA_SAMPLES := [5; 5; 5; 5];
     DISTNORM_SAMPLES := [1; 1; 1; 1] |}.


Definition fit_args (ra dec : option R) : Args :=
  mkArgs "kn.prior" 0 false false 1 (Some "skymap.fits"%string) ra dec 4.

(** ** The rest of the conditional prior class (prior.py, lines 51-59) *)

(** One round of the loop on lines 56-58. *)
Definition override_item {V} (key : string) (value : V)
    (instantiation_dict : gmap string V) : gmap string V :=
  match instantiation_dict !! key with
  | Some _ => <[key := value]> instantiation_dict
  | None => instantiation_dict
  end.

(** [get_instantiation_dict] (lines 54-59), given the dict that
    [Prior.get_instantiation_dict(self)] returns and the value of
    [self.reference_params]. *)
Definition get_instantiation_dict {V}
    (instantiation_dict reference_params : gmap string V) : gmap string V :=
  map_fold override_item instantiation_dict reference_params.

(** ** Further definitions used in the statements *)

(** The calls the driver makes for a recognized model, in source order,
    up to and including the load of the light-curve model. *)
Definition training_calls (args : DriverArgs) (filenames : list string)
    : list Event :=
  [GlobFiles (format_opt (data_path args) +:+ "/*.dat");
   ReadFiles filenames;
   CallModelFunction (model args);
   TrainModel (model args);
   LoadLightCurveModel (model args)].

(** The sample [convert_mtot_mni] returns, from the values of the three
    linear parameters and of xmix. *)
Definition converted (parameters : gmap string R) (mni mtot mrp xmix : R)
    : gmap string R :=
  <["mrp_c"%string := xmix * (mtot - mni) - mrp]>
    (<["mni_c"%string := mni / mtot]>
       (<["mrp"%string := mrp]>
          (<["mtot"%string := mtot]>
             (<["mni"%string := mni]> parameters)))).

(** * Properties *)

(** ** Outcomes *)

Lemma py_truediv_nonzero (a b : R) : b <> 0 -> py_truediv a b = Return (a / b).
Proof. intros Hb. unfold py_truediv. destruct (Req_dec_T b 0); [lra | reflexivity]. Qed.

Lemma py_truediv_zero (a : R) : py_truediv a 0 = Raise ZeroDivisionError.
Proof. unfold py_truediv. destruct (Req_dec_T 0 0); [reflexivity | lra]. Qed.

Lemma py_getitem_Some {V} (d : gmap string V) (k : string) (v : V) :
  d !! k = Some v -> py_getitem d k = Return v.
Proof. intros H. unfold py_getitem. now rewrite H. Qed.

Lemma py_getitem_None {V} (d : gmap string V) (k : string) :
  d !! k = None -> py_getitem d k = Raise (KeyError k).
Proof. intros H. unfold py_getitem. now rewrite H. Qed.

(** ** Small runs *)

Example split_on_filters :
  split_on ","%char "u,g,r" = ["u"; "g"; "r"]%string.
Proof. reflexivity. Qed.

Example split_on_empty : split_on ","%char "" = [""%string].
Proof. reflexivity. Qed.

Example np_trapz_triangle : np_trapz [1; 0] [0; 2] = Return 1.
Proof. unfold np_trapz. simpl. f_equal. lra. Qed.

Example np_trapz_shapes : raises (np_trapz [1; 0] [0; 1; 2]).
Proof. eexists. reflexivity. Qed.

(** ** The conditional inclination prior *)

Import ConditionalGaussianIotaGivenThetaCore.

(** The outcome of the condition function, by cases on [N_sigma] and on
    the presence of the conditioning variable. *)
Lemma condition_function_cases minimum maximum name N latex_label unit boundary
    (reference_params kwargs : gmap string R) :
  _condition_function
    (init minimum maximum name N latex_label unit boundary)
    reference_params kwargs
  = if Req_dec_T N 0 then Raise ZeroDivisionError
    else match kwargs !! "thetaCore"%string with
         | Some thetaCore => Return {[ "sigma"%string := thetaCore / N ]}
         | None => Raise (KeyError "thetaCore")
         end.
Proof.
  unfold _condition_function, py_truediv. simpl.
  destruct (Req_dec_T N 0) as [HN | HN]; simpl; [reflexivity |].
  unfold py_getitem.
  destruct (kwargs !! "thetaCore"%string) as [theta |]; simpl; [| reflexivity].
  do 2 f_equal. unfold Rdiv. ring.
Qed.

(** C1.  The prior built by the constructor has mean 0, and for every
    realized value [thetaCore] of the opening angle and every [N_sigma]
    the scale returned by the condition function is the outcome of
    [thetaCore / N_sigma] (the sole entry of the returned dict, under
    ['sigma']); with [thetaCore = 0.1] and [N_sigma = 2] it is [0.05]. *)
Theorem conditional_scale_is_thetaCore_over_N_sigma :
  forall minimum maximum name N_sigma latex_label unit boundary
         (reference_params kwargs : gmap string R) (thetaCore : R),
    mu (init minimum maximum name N_sigma latex_label unit boundary) = 0
    /\ _condition_function
         (init minimum maximum name N_sigma latex_label unit boundary)
         reference_params (<["thetaCore"%string := thetaCore]> kwargs)
       = (scale ← py_truediv thetaCore N_sigma;
          Return {[ "sigma"%string := scale ]})
    /\ _condition_function
         (init minimum maximum name 2 latex_label unit boundary)
         reference_params (<["thetaCore"%string := 0.1]> kwargs)
       = Return {[ "sigma"%string := 0.05 ]}.
Proof.
  intros lo hi nm N lbl un bd ref kw theta.
  split; [reflexivity |]. split.
  - rewrite condition_function_cases, lookup_insert_eq.
    unfold py_truediv. destruct (Req_dec_T N 0); reflexivity.
  - rewrite condition_function_cases, lookup_insert_eq.
    destruct (Req_dec_T 2 0); [lra |].
    do 2 f_equal. lra.
Qed.

(** C6.  The prior built by the constructor lists ["thetaCore"] as its
    required variable, and when the keyword arguments hold no value for
    it the condition function raises: [KeyError] for a non-zero
    [N_sigma], [ZeroDivisionError] otherwise.  No dict is returned. *)
Theorem condition_function_requires_thetaCore :
  forall minimum maximum name N_sigma latex_label unit boundary
         (reference_params kwargs : gmap string R),
    kwargs !! "thetaCore"%string = None ->
    _required_variables
      (init minimum maximum name N_sigma latex_label unit boundary)
    = ["thetaCore"%string]
    /\ raises (_condition_function
                 (init minimum maximum name N_sigma latex_label unit boundary)
                 reference_params kwargs)
    /\ (N_sigma <> 0 ->
        _condition_function
          (init minimum maximum name N_sigma latex_label unit boundary)
          reference_params kwargs
        = Raise (KeyError "thetaCore")).
Proof.
  intros lo hi nm N lbl un bd ref kw Hmissing.
  split; [reflexivity |].
  rewrite condition_function_cases, Hmissing.
  split.
  - destruct (Req_dec_T N 0); eexists; reflexivity.
  - intros HN. destruct (Req_dec_T N 0); [contradiction | reflexivity].
Qed.

Lemma condition_function_requires_thetaCore_witness :
  let kwargs : gmap string R := {[ "thetaObs"%string := 0.3 ]} in
  kwargs !! "thetaCore"%string = None
  /\ _condition_function (init 0 (PI / 2) (Some "inclination_EM"%string) 2 None None None)
       ∅ kwargs
     = Raise (KeyError "thetaCore").
Proof.
  split; [reflexivity |].
  apply (condition_function_requires_thetaCore 0 (PI / 2)
           (Some "inclination_EM"%string) 2 None None None ∅
           {[ "thetaObs"%string := 0.3 ]}); [reflexivity | lra].
Defined.

(** ** Sequencing *)

Lemma bind_Return_inv {A B} (c : Py A) (k : A -> Py B) (b : B) :
  (c ≫= k) = Return b -> exists a, c = Return a /\ k a = Return b.
Proof.
  destruct c as [a | e]; simpl; intros H; [eauto | discriminate].
Qed.

Lemma bind_Return {A B} (c : Py A) (k : A -> Py B) (a : A) :
  c = Return a -> (c ≫= k) = k a.
Proof. now intros ->. Qed.

Lemma bind_Raise {A B} (c : Py A) (k : A -> Py B) (e : PyExc) :
  c = Raise e -> (c ≫= k) = Raise e.
Proof. now intros ->. Qed.

Tactic Notation "bind_inv" hyp(H) "as" simple_intropattern(a) ident(Ha) :=
  apply bind_Return_inv in H; destruct H as (a & Ha & H).

(** ** The Ebv entry *)

Lemma setup_Ebv_absent priors args :
  entries priors !! "Ebv"%string = None ->
  entries (setup_Ebv priors args) !! "Ebv"%string
  = Some (if Rgt_dec (Ebv_max args) 0
          then if use_Ebv args then Ebv_decay (Ebv_max args) else Ebv_delta
          else Ebv_delta).
Proof.
  intros Habs. unfold setup_Ebv. rewrite Habs.
  destruct (Rgt_dec (Ebv_max args) 0), (use_Ebv args); simpl;
    now rewrite lookup_insert_eq.
Qed.

Lemma setup_Ebv_present priors args p :
  entries priors !! "Ebv"%string = Some p -> setup_Ebv priors args = priors.
Proof. intros H. unfold setup_Ebv. now rewrite H. Qed.

Lemma bind_Return_l {A B} (a : A) (k : A -> Py B) : (Return a ≫= k) = k a.
Proof. reflexivity. Qed.

(** The outcome of the sky-map fit: the reader's exception, or
    [NameError] for [np] once the sky map is read. *)
Lemma fit_outcome rsm priors args :
  inclination_prior_from_fit rsm priors args
  = match rsm (fits_file args) with
    | Return _ => Raise (NameError "np")
    | Raise e => Raise e
    end.
Proof.
  unfold inclination_prior_from_fit.
  destruct (rsm (fits_file args)); [| reflexivity].
  rewrite bind_Return_l. now destruct (position_branch args).
Qed.

Lemma fit_never_returns rsm priors args priors' :
  inclination_prior_from_fit rsm priors args <> Return priors'.
Proof.
  rewrite fit_outcome. now destruct (rsm (fits_file args)).
Qed.

Lemma conditional_keeps_other_entries priors args priors' key :
  setup_conditional_inclination priors args = Return priors' ->
  key <> "inclination_EM"%string ->
  entries priors' !! key = entries priors !! key.
Proof.
  unfold setup_conditional_inclination. intros H Hkey.
  destruct (conditional_gaussian_prior_thetaObs args).
  - bind_inv H as orig Horig. bind_inv H as mn Hmn. bind_inv H as mx Hmx.
    injection H as <-. simpl.
    now rewrite lookup_insert_ne.
  - now injection H as <-.
Qed.

Section CreatePriorFacts.

Variable load_prior_file : string -> Py (gmap string Prior).
Variable read_sky_map : option string -> Py (list SkyRow).

Lemma load_base_prior_entries model_names args priors :
  load_base_prior load_prior_file model_names args = Return priors ->
  load_prior_file (prior args) = Return (entries priors).
Proof.
  unfold load_base_prior. intros H.
  destruct (Nat.ltb 0 (length (AnBa2022_intersect model_names)));
    bind_inv H as loaded Hl; injection H as <-; exact Hl.
Qed.

(** The Ebv entry of the constructed prior is the one the Ebv step
    leaves. *)
Lemma create_prior_Ebv_entry model_names args base priors' :
  load_prior_file (prior args) = Return base ->
  create_prior_from_args load_prior_file read_sky_map model_names args
    = Return priors' ->
  exists priors,
    entries priors = base
    /\ entries priors' !! "Ebv"%string
       = entries (setup_Ebv priors args) !! "Ebv"%string.
Proof.
  unfold create_prior_from_args. intros Hload H.
  bind_inv H as priors Hbase. bind_inv H as priors2 Hcond.
  pose proof (load_base_prior_entries _ _ _ Hbase) as Hl.
  rewrite Hload in Hl. injection Hl as Hl.
  exists priors. split; [now symmetry |].
  pose proof (conditional_keeps_other_entries _ _ _ "Ebv"%string Hcond
                ltac:(discriminate)) as Hc.
  rewrite <- Hc.
  destruct (truthy_str (fits_file args)).
  - now apply fit_never_returns in H.
  - now injection H as <-.
Qed.

End CreatePriorFacts.

(** The decaying table for [Ebv_max = 2]: the density is [1 - x / 2]. *)
Lemma Ebv_decay_2_density x :
  0 <= x <= 2 -> table_density (Ebv_decay 2) x = 1 - x / 2.
Proof.
  intros [H0 H2]. simpl.
  destruct (Rle_dec 0 x); [| contradiction].
  destruct (Rle_dec x 2); [| contradiction].
  lra.
Qed.

Lemma Ebv_decay_2_outside x :
  x < 0 \/ 2 < x -> table_density (Ebv_decay 2) x = 0.
Proof.
  intros H. simpl.
  destruct (Rle_dec 0 x); [| reflexivity].
  destruct (Rle_dec x 2); [lra | reflexivity].
Qed.

(** C5.  When the prior file has no Ebv entry and construction returns:
    with [use_Ebv] false the Ebv entry is the fixed-value distribution
    whose support is the single point 0; with [use_Ebv] true and
    [Ebv_max = 2.0] it is the interpolated distribution with support
    [[0, 2]] whose density [1 - x / 2] is strictly decreasing on the
    support, zero outside it, and has trapezoidal integral 1. *)
Theorem Ebv_prior_support :
  forall load_prior_file read_sky_map model_names args base priors',
    load_prior_file (prior args) = Return base ->
    base !! "Ebv"%string = None ->
    create_prior_from_args load_prior_file read_sky_map model_names args
      = Return priors' ->
    (use_Ebv args = false ->
       entries priors' !! "Ebv"%string = Some Ebv_delta
       /\ forall x, in_support Ebv_delta x <-> x = 0)
    /\ (use_Ebv args = true -> Ebv_max args = 2 ->
          entries priors' !! "Ebv"%string = Some (Ebv_decay 2)
          /\ (forall x, in_support (Ebv_decay 2) x <-> 0 <= x <= 2)
          /\ (forall x, 0 <= x <= 2 -> table_density (Ebv_decay 2) x = 1 - x / 2)
          /\ (forall x, x < 0 \/ 2 < x -> table_density (Ebv_decay 2) x = 0)
          /\ (forall x y, 0 <= x -> x < y -> y <= 2 ->
                table_density (Ebv_decay 2) y < table_density (Ebv_decay 2) x)
          /\ np_trapz [1 / (0.5 * 2); 0] [0; 2] = Return 1).
Proof.
  intros lpf rsm model_names args base priors'
         Hload Habs Hcreate.
  destruct (create_prior_Ebv_entry _ _ _ _ _ _ Hload Hcreate)
    as (priors & Hbase & Hentry).
  rewrite Hentry, setup_Ebv_absent by now rewrite Hbase.
  split.
  - intros Hflag. rewrite Hflag. split.
    + now destruct (Rgt_dec (Ebv_max args) 0).
    + intros x. reflexivity.
  - intros Hflag Hmax. rewrite Hflag, Hmax.
    destruct (Rgt_dec 2 0); [| lra].
    split; [reflexivity |].
    split; [intros x; reflexivity |].
    split; [apply Ebv_decay_2_density |].
    split; [apply Ebv_decay_2_outside |].
    split.
    + intros x y Hx Hxy Hy.
      rewrite !Ebv_decay_2_density by lra. lra.
    + unfold np_trapz. simpl. f_equal. lra.
Qed.

(** C9.  When the prior file has no Ebv entry and construction returns:
    with [use_Ebv] true but [Ebv_max] not strictly positive the Ebv entry
    is the fixed-zero distribution; the decaying distribution is the
    entry exactly when [use_Ebv] is true and [Ebv_max > 0], and the
    fixed-zero distribution is the entry in every other case. *)
Theorem Ebv_decay_needs_flag_and_positive_max :
  forall load_prior_file read_sky_map model_names args base priors',
    load_prior_file (prior args) = Return base ->
    base !! "Ebv"%string = None ->
    create_prior_from_args load_prior_file read_sky_map model_names args
      = Return priors' ->
    (use_Ebv args = true -> ~ Ebv_max args > 0 ->
       entries priors' !! "Ebv"%string = Some Ebv_delta)
    /\ (entries priors' !! "Ebv"%string = Some (Ebv_decay (Ebv_max args))
        <-> use_Ebv args = true /\ Ebv_max args > 0)
    /\ (entries priors' !! "Ebv"%string = Some Ebv_delta
        <-> ~ (use_Ebv args = true /\ Ebv_max args > 0)).
Proof.
  intros lpf rsm model_names args base priors'
         Hload Habs Hcreate.
  destruct (create_prior_Ebv_entry _ _ _ _ _ _ Hload Hcreate)
    as (priors & Hbase & Hentry).
  rewrite Hentry, setup_Ebv_absent by now rewrite Hbase.
  unfold Ebv_delta, Ebv_decay.
  destruct (Rgt_dec (Ebv_max args) 0) as [Hpos | Hneg],
           (use_Ebv args) eqn:Hflag;
    repeat split; intros; try reflexivity; try discriminate;
    try contradiction; try tauto;
    try (exfalso; intuition discriminate); intuition discriminate.
Qed.

Lemma Ebv_prior_support_witness :
  let load := fun _ : string => Return (∅ : gmap string Prior) in
  let no_map := fun _ : option string => Raise (ExternalError "no sky map") in
  let args := mkArgs "kn.prior" 2 true false 1 None None None 10 in
  let priors' :=
    setup_Ebv {| dict_class := GWPriorDict; entries := ∅;
                 conversion_function := default_conversion |} args in
  create_prior_from_args load no_map ["Bu2019lm"%string] args = Return priors'
  /\ entries priors' !! "Ebv"%string = Some (Ebv_decay 2).
Proof.
  intros load no_map args priors'.
  assert (Hrun : create_prior_from_args load no_map ["Bu2019lm"%string] args
                 = Return priors') by reflexivity.
  split; [exact Hrun |].
  apply (Ebv_prior_support load no_map _ args ∅ priors'
           eq_refl eq_refl Hrun); reflexivity.
Defined.

Lemma Ebv_decay_needs_flag_and_positive_max_witness :
  let load := fun _ : string => Return (∅ : gmap string Prior) in
  let no_map := fun _ : option string => Raise (ExternalError "no sky map") in
  let args := mkArgs "kn.prior" 0 true false 1 None None None 10 in
  let priors' :=
    setup_Ebv {| dict_class := GWPriorDict; entries := ∅;
                 conversion_function := default_conversion |} args in
  create_prior_from_args load no_map ["Bu2019lm"%string] args = Return priors'
  /\ entries priors' !! "Ebv"%string = Some Ebv_delta.
Proof.
  intros load no_map args priors'.
  assert (Hrun : create_prior_from_args load no_map ["Bu2019lm"%string] args
                 = Return priors') by reflexivity.
  split; [exact Hrun |].
  apply (Ebv_decay_needs_flag_and_positive_max load no_map _ args ∅
           priors' eq_refl eq_refl Hrun); first [reflexivity | simpl; lra].
Defined.

(** ** The AnBa2022 conversion *)

Lemma AnBa2022_intersect_nonempty model_names :
  Nat.ltb 0 (length (AnBa2022_intersect model_names)) = true
  <-> exists m, m ∈ model_names /\ AnBa2022_family m.
Proof.
  unfold AnBa2022_intersect, AnBa2022_family.
  set (S := ({[ "AnBa2022_linear"%string; "AnBa2022_log"%string ]} : gset string)
            ∩ list_to_set model_names).
  rewrite Nat.ltb_lt. split.
  - intros Hlen. destruct (elements S) as [| m l] eqn:E; [simpl in Hlen; lia |].
    assert (Hm : m ∈ S) by (apply elem_of_elements; rewrite E; left).
    exists m. subst S.
    apply elem_of_intersection in Hm as [Hfam Hin].
    split; [now apply elem_of_list_to_set in Hin |].
    apply elem_of_union in Hfam as [Hfam | Hfam];
      apply elem_of_singleton in Hfam; auto.
  - intros (m & Hin & Hfam).
    assert (Hm : m ∈ elements S) by (apply elem_of_elements; subst S; set_solver).
    destruct (elements S); [inversion Hm | simpl; lia].
Qed.

Lemma fill_linear_value parameters param v :
  linear_value parameters param = Some v ->
  fill_linear param parameters = Return (<[param := v]> parameters).
Proof.
  unfold linear_value, fill_linear, py_getitem. intros H.
  destruct (parameters !! param) as [w |] eqn:E.
  - injection H as ->. now rewrite insert_id.
  - destruct (parameters !! ("log10_" +:+ param)) as [l |]; [| discriminate].
    simpl in *. now injection H as <-.
Qed.

Lemma fill_linear_missing parameters param :
  linear_value parameters param = None ->
  fill_linear param parameters = Raise (KeyError ("log10_" +:+ param)).
Proof.
  unfold linear_value, fill_linear, py_getitem. intros H.
  destruct (parameters !! param); [discriminate |].
  now destruct (parameters !! ("log10_" +:+ param)).
Qed.

(** C7.  When a member of the AnBa2022 family is among the model names,
    the base prior load returns a dictionary that carries
    [convert_mtot_mni].  Applied to a sample in which each of mni, mtot,
    mrp is present or has its log10 counterpart, xmix is present and
    mtot is not zero, that function returns the sample with mni, mtot,
    mrp set to their values (ten to the power of the log10 counterpart
    only where the linear parameter was absent; a present value is
    kept), then [mni_c = mni / mtot] and
    [mrp_c = xmix * (mtot - mni) - mrp]. *)
Theorem AnBa2022_installs_convert_mtot_mni :
  forall (load_prior_file : string -> Py (gmap string Prior))
         (library_default : gmap string R -> Py (gmap string R))
         model_names args base,
    (exists m, m ∈ model_names /\ AnBa2022_family m) ->
    load_prior_file (prior args) = Return base ->
    exists priors,
      load_base_prior load_prior_file model_names args = Return priors
      /\ entries priors = base
      /\ conversion_function priors = convert_mtot_mni_function
      /\ forall (parameters : gmap string R) mni mtot mrp xmix,
           linear_value parameters "mni" = Some mni ->
           linear_value parameters "mtot" = Some mtot ->
           linear_value parameters "mrp" = Some mrp ->
           parameters !! "xmix"%string = Some xmix ->
           mtot <> 0 ->
           apply_conversion library_default (conversion_function priors)
             parameters
           = Return (<["mrp_c"%string := xmix * (mtot - mni) - mrp]>
                       (<["mni_c"%string := mni / mtot]>
                          (<["mrp"%string := mrp]>
                             (<["mtot"%string := mtot]>
                                (<["mni"%string := mni]> parameters)))))
           /\ (forall param v,
                 param ∈ ["mni"; "mtot"; "mrp"]%string ->
                 parameters !! param = Some v ->
                 linear_value parameters param = Some v).
Proof.
  intros lpf dflt model_names args base Hfam Hload.
  apply AnBa2022_intersect_nonempty in Hfam.
  eexists. split; [| split; [| split]].
  - unfold load_base_prior. rewrite Hfam, Hload. reflexivity.
  - reflexivity.
  - reflexivity.
  - intros parameters mni mtot mrp xmix Hmni Hmtot Hmrp Hxmix Hnz. split.
    + simpl. unfold convert_mtot_mni, for_each_param.
      rewrite (fill_linear_value _ _ _ Hmni). simpl.
      rewrite (fill_linear_value _ "mtot" mtot) by
        (unfold linear_value in *; simpl in *;
         rewrite !lookup_insert_ne by discriminate; exact Hmtot).
      simpl.
      rewrite (fill_linear_value _ "mrp" mrp) by
        (unfold linear_value in *; simpl in *;
         rewrite !lookup_insert_ne by discriminate; exact Hmrp).
      simpl. unfold py_getitem.
      repeat (rewrite ?lookup_insert_eq;
              rewrite ?lookup_insert_ne by discriminate; simpl).
      rewrite py_truediv_nonzero by exact Hnz. simpl.
      repeat (rewrite ?lookup_insert_eq;
              rewrite ?lookup_insert_ne by discriminate; simpl).
      rewrite Hxmix. simpl.
      repeat (rewrite ?lookup_insert_eq;
              rewrite ?lookup_insert_ne by discriminate; simpl).
      reflexivity.
    + intros param v _ Hv. unfold linear_value. now rewrite Hv.
Qed.

Lemma AnBa2022_installs_convert_mtot_mni_witness :
  let load := fun _ : string => Return (∅ : gmap string Prior) in
  let args := mkArgs "AnBa2022.prior" 0 false false 1 None None None 10 in
  let parameters : gmap string R :=
    {[ "log10_mni"%string := -1; "mtot"%string := 2;
       "log10_mrp"%string := -2; "xmix"%string := 0.5 ]} in
  exists priors,
    load_base_prior load ["Bu2019lm"; "AnBa2022_log"]%string args = Return priors
    /\ apply_conversion Return (conversion_function priors) parameters
       = Return (<["mrp_c"%string := 0.5 * (2 - Rpower 10 (-1)) - Rpower 10 (-2)]>
                   (<["mni_c"%string := Rpower 10 (-1) / 2]>
                      (<["mrp"%string := Rpower 10 (-2)]>
                         (<["mtot"%string := 2]>
                            (<["mni"%string := Rpower 10 (-1)]> parameters))))).
Proof.
  intros load args parameters.
  destruct (AnBa2022_installs_convert_mtot_mni load Return
              ["Bu2019lm"; "AnBa2022_log"]%string args ∅)
    as (priors & Hload & _ & _ & Hconv).
  - exists "AnBa2022_log"%string. split.
    + apply list_elem_of_In. simpl. tauto.
    + right. reflexivity.
  - reflexivity.
  - exists priors. split; [exact Hload |].
    apply (Hconv parameters (Rpower 10 (-1)) 2 (Rpower 10 (-2)) 0.5);
      try reflexivity.
    lra.
Defined.

(** ** The sky-map fit *)

Lemma position_branch_input args :
  position_branch args = InputSkyLocation
  <-> exists r d, ra args = Some r /\ dec args = Some d /\ r <> 0 /\ d <> 0.
Proof.
  unfold position_branch, truthy_float. split.
  - intros H.
    destruct (ra args) as [r |]; [| discriminate].
    destruct (Req_dec_T r 0); [discriminate |].
    destruct (dec args) as [d |]; [| discriminate].
    destruct (Req_dec_T d 0); [discriminate |].
    eauto 6.
  - intros (r & d & -> & -> & Hr & Hd).
    destruct (Req_dec_T r 0); [contradiction |].
    destruct (Req_dec_T d 0); [contradiction |].
    reflexivity.
Qed.

Lemma position_branch_zero args :
  ra args = Some 0 \/ dec args = Some 0 ->
  position_branch args = MaximumPosteriorPoint.
Proof.
  intros Hzero. destruct (position_branch args) eqn:E; [| reflexivity].
  apply position_branch_input in E as (r & d & Hr & Hd & Hr0 & Hd0).
  destruct Hzero as [Hz | Hz]; rewrite Hz in *; congruence.
Qed.

Lemma fit_raises_after_read skymap priors args :
  inclination_prior_from_fit (fun _ => Return skymap) priors args
  = Raise (NameError "np").
Proof. now rewrite fit_outcome. Qed.

(** C2.  On any sky map that is read, with no sky location given, the
    fit raises [NameError] for [np] (line 85) and returns no dictionary:
    the fold of lines 113-121 is not reached and no folded density is
    produced, for a symmetric input as for any other. *)
Theorem fold_is_never_reached :
  forall (skymap : list SkyRow) (priors : PriorDict),
    position_branch (fit_args None None) = MaximumPosteriorPoint
    /\ inclination_prior_from_fit (fun _ => Return skymap) priors
         (fit_args None None)
       = Raise (NameError "np")
    /\ forall priors',
         inclination_prior_from_fit (fun _ => Return skymap) priors
           (fit_args None None)
         <> Return priors'.
Proof.
  intros skymap priors. split; [reflexivity |]. split.
  - apply fit_raises_after_read.
  - intros priors'. apply fit_never_returns.
Qed.

(** C3.  For every sky map that is read, every prior dictionary and every
    choice of the sky-location arguments, the fit raises [NameError] for
    [np]; whatever the reader does, it returns no dictionary, so no
    table, normalized or not, is stored under ['inclination_EM']. *)
Theorem no_table_is_stored :
  forall (read_sky_map : option string -> Py (list SkyRow))
         (skymap : list SkyRow) (priors : PriorDict) (ra dec : option R),
    inclination_prior_from_fit (fun _ => Return skymap) priors
      (fit_args ra dec)
    = Raise (NameError "np")
    /\ forall priors',
         inclination_prior_from_fit read_sky_map priors (fit_args ra dec)
         <> Return priors'.
Proof.
  intros rsm skymap priors ra dec. split.
  - apply fit_raises_after_read.
  - intros priors'. apply fit_never_returns.
Qed.

(** C4.  With a right ascension of 10 and a declination of 20 supplied,
    the branch for a supplied position is entered and, on any sky map
    that is read, the fit raises [NameError] for [np] (line 80): no
    profile is extracted for the supplied position. *)
Theorem supplied_position_raises :
  forall (skymap : list SkyRow) (priors : PriorDict),
    position_branch (fit_args (Some 10) (Some 20)) = InputSkyLocation
    /\ inclination_prior_from_fit (fun _ => Return skymap) priors
         (fit_args (Some 10) (Some 20))
       = Raise (NameError "np").
Proof.
  intros skymap priors. split.
  - apply position_branch_input. exists 10, 20.
    repeat split; try reflexivity; lra.
  - apply fit_raises_after_read.
Qed.

(** C10.  The branch for a supplied position is entered exactly when
    both coordinates are given and non-zero; with a right ascension or a
    declination of 0 the other branch is entered.  There, on any sky map
    that is read, the fit raises [NameError] for [np] (line 85): the
    maximum-probability pixel is not looked up. *)
Theorem zero_coordinate_enters_maP_branch_and_raises :
  (forall args,
     position_branch args = InputSkyLocation
     <-> exists r d, ra args = Some r /\ dec args = Some d /\ r <> 0 /\ d <> 0)
  /\ forall (skymap : list SkyRow) (priors : PriorDict) (other : R),
       position_branch (fit_args (Some 0) (Some other)) = MaximumPosteriorPoint
       /\ position_branch (fit_args (Some other) (Some 0))
          = MaximumPosteriorPoint
       /\ inclination_prior_from_fit (fun _ => Return skymap) priors
            (fit_args (Some 0) (Some other))
          = Raise (NameError "np")
       /\ inclination_prior_from_fit (fun _ => Return skymap) priors
            (fit_args (Some other) (Some 0))
          = Raise (NameError "np").
Proof.
  split; [apply position_branch_input |].
  intros skymap priors other.
  split; [apply position_branch_zero; left; reflexivity |].
  split; [apply position_branch_zero; right; reflexivity |].
  split; apply fit_raises_after_read.
Qed.

(** ** The training driver *)

Section TrainingDriverFacts.

Variables Data TrainingData TrainingModel LightCurveModel : Type.
Variable model_parameters : gmap string (ModuleAttr Data TrainingData).
Variable np_arange : R -> R -> R -> Py (list R).
Variable glob_glob : string -> list string.
Variable read_files : list string -> Py Data.
Variable SVDTrainingModel :
  string -> TrainingData -> list R -> list string -> Z -> Z ->
  option string -> string -> Py TrainingModel.
Variable SVDLightCurveModel :
  string -> list R -> option string -> Z -> string -> TrainingModel ->
  Py LightCurveModel.
Variable plot_comparison :
  DriverArgs -> TrainingData -> TrainingModel -> LightCurveModel ->
  list R -> list string -> Py ().

(** A name is a key of [MODEL_FUNCTIONS] exactly when the module binds
    it to a function. *)
Lemma MODEL_FUNCTIONS_lookup name :
  MODEL_FUNCTIONS Data TrainingData model_parameters !! name
  = match model_parameters !! name with
    | Some (Function _ _ f) => Some f
    | _ => None
    end.
Proof.
  unfold MODEL_FUNCTIONS. rewrite lookup_omap.
  destruct (model_parameters !! name) as [[f |] |]; reflexivity.
Qed.

Lemma MODEL_FUNCTIONS_unknown name :
  MODEL_FUNCTIONS Data TrainingData model_parameters !! name = None
  <-> forall f, model_parameters !! name <> Some (Function _ _ f).
Proof.
  rewrite MODEL_FUNCTIONS_lookup.
  destruct (model_parameters !! name) as [[f |] |]; split;
    try discriminate; try reflexivity; try (intros; discriminate).
  intros H. now destruct (H f).
Qed.

(** For a recognized model whose outside calls all return, the driver
    makes them once each, in the order of the source. *)
Lemma main_known_model args log model_function sample_times data
    training_data training_model light_curve_model :
  MODEL_FUNCTIONS Data TrainingData model_parameters !! model args
    = Some model_function ->
  np_arange (tmin args) (tmax args + dt args) (dt args) = Return sample_times ->
  read_files (glob_glob (format_opt (data_path args) +:+ "/*.dat"))
    = Return data ->
  model_function data = Return training_data ->
  SVDTrainingModel (model args) training_data sample_times
    (split_on ","%char (filters args))
    (svd_ncoeff args) (tensorflow_nepochs args) (svd_path args)
    (interpolation_type args) = Return training_model ->
  SVDLightCurveModel (model args) sample_times (svd_path args)
    (svd_ncoeff args) (interpolation_type args) training_model
    = Return light_curve_model ->
  plot args = false ->
  main Data TrainingData TrainingModel LightCurveModel model_parameters
    np_arange glob_glob read_files SVDTrainingModel SVDLightCurveModel
    plot_comparison args log
  = (Return (),
     log ++ [GlobFiles (format_opt (data_path args) +:+ "/*.dat");
             ReadFiles (glob_glob (format_opt (data_path args) +:+ "/*.dat"));
             CallModelFunction (model args); TrainModel (model args);
             LoadLightCurveModel (model args)]).
Proof.
  intros Hfun Hts Hread Hmf Htrain Hlc Hplot.
  unfold main, mbind, driver_bind, pure, call.
  rewrite Hts, Hfun, Hread, Hmf, Htrain, Hlc, Hplot.
  unfold mret, driver_ret. now rewrite <- !app_assoc.
Qed.

(** The driver on a model name that is not a key of [MODEL_FUNCTIONS]. *)
Lemma main_unknown_model args log :
  MODEL_FUNCTIONS Data TrainingData model_parameters !! model args = None ->
  main Data TrainingData TrainingModel LightCurveModel model_parameters
    np_arange glob_glob read_files SVDTrainingModel SVDLightCurveModel
    plot_comparison args log
  = (match np_arange (tmin args) (tmax args + dt args) (dt args) with
     | Return _ =>
         Raise (ValueError
                  (model args
                   +:+ " unknown. Please add to nmma.em.model_parameters"))
     | Raise e => Raise e
     end, log).
Proof.
  intros Hfun. unfold main, mbind, driver_bind, pure.
  destruct (np_arange _ _ _); [| reflexivity].
  rewrite Hfun. reflexivity.
Qed.

End TrainingDriverFacts.

(** C8.  For a model name that the module [model_parameters] does not
    bind to a function, the driver raises and the record of outside
    calls is unchanged: no file is listed or read, no model function is
    called, nothing is trained, and no call is made a second time.  When
    the time grid is built, the exception is the [ValueError] naming the
    model. *)
Theorem unknown_model_raises_before_any_call :
  forall (Data TrainingData TrainingModel LightCurveModel : Type)
         (model_parameters : gmap string (ModuleAttr Data TrainingData))
         np_arange glob_glob read_files SVDTrainingModel SVDLightCurveModel
         plot_comparison args log,
    (forall f, model_parameters !! model args <> Some (Function _ _ f)) ->
    exists e,
      main Data TrainingData TrainingModel LightCurveModel model_parameters
        np_arange glob_glob read_files SVDTrainingModel SVDLightCurveModel
        plot_comparison args log
      = (Raise e, log)
      /\ (forall sample_times,
            np_arange (tmin args) (tmax args + dt args) (dt args)
              = Return sample_times ->
            e = ValueError
                  (model args
                   +:+ " unknown. Please add to nmma.em.model_parameters")).
Proof.
  intros Data TrainingData TrainingModel LightCurveModel model_parameters
         np_arange glob_glob read_files SVDTrainingModel SVDLightCurveModel
         plot_comparison args log Hunknown.
  apply MODEL_FUNCTIONS_unknown in Hunknown.
  rewrite (main_unknown_model _ _ _ _ _ _ _ _ _ _ _ _ _ Hunknown).
  destruct (np_arange _ _ _) as [ts | e].
  - eexists. split; [reflexivity |]. reflexivity.
  - exists e. split; [reflexivity |]. discriminate.
Qed.

Lemma unknown_model_raises_before_any_call_witness :
  let module : gmap string (ModuleAttr () ()) :=
    {[ "Bu2019lm"%string := Function () () (fun _ => Return ());
       "np"%string := NotAFunction () () ]} in
  let args :=
    mkDriverArgs "np" (Some "svdmodels"%string) (Some "lcs"%string)
      "sklearn_gp" 0 14 0.1 10 15 "u,g,r" "output" false false in
  exists e,
    main () () () () module (fun _ _ _ => Return [0; 0.1])
      (fun _ => ["lcs/a.dat"%string]) (fun _ => Return ())
      (fun _ _ _ _ _ _ _ _ => Return ()) (fun _ _ _ _ _ _ => Return ())
      (fun _ _ _ _ _ _ => Return ()) args []
    = (Raise e, []).
Proof.
  intros module args.
  destruct (unknown_model_raises_before_any_call () () () () module
              (fun _ _ _ => Return [0; 0.1])
              (fun _ => ["lcs/a.dat"%string]) (fun _ => Return ())
              (fun _ _ _ _ _ _ _ _ => Return ()) (fun _ _ _ _ _ _ => Return ())
              (fun _ _ _ _ _ _ => Return ()) args [])
    as (e & Hrun & _).
  - intros f. unfold module, args. simpl.
    rewrite lookup_insert_ne by discriminate.
    rewrite lookup_singleton_eq. discriminate.
  - exists e. exact Hrun.
Defined.

(** * Further properties of the two files *)

(** ** The conditional prior class *)

Lemma override_item_lookup {V} (key : string) (value : V)
    (d : gmap string V) (k : string) :
  override_item key value d !! k
  = match d !! k with
    | Some v => Some (if decide (key = k) then value else v)
    | None => None
    end.
Proof.
  unfold override_item.
  destruct (d !! key) as [w |] eqn:Ekey.
  - rewrite lookup_insert. destruct (decide (key = k)) as [<- | Hne].
    + now rewrite Ekey.
    + now destruct (d !! k).
  - destruct (decide (key = k)) as [<- | Hne].
    + now rewrite Ekey.
    + now destruct (d !! k).
Qed.

(** X1.  The dict returned by [get_instantiation_dict] has exactly the
    keys of the base class's dict; a key that is also a reference
    parameter carries the reference value, every other key keeps its
    value, and a reference parameter that is not a key of the base dict
    is not added. *)
Theorem get_instantiation_dict_lookup :
  forall (V : Type) (instantiation_dict reference_params : gmap string V)
         (k : string),
    get_instantiation_dict instantiation_dict reference_params !! k
    = match instantiation_dict !! k with
      | Some v => Some (default v (reference_params !! k))
      | None => None
      end.
Proof.
  intros V d ref k. unfold get_instantiation_dict.
  apply (map_fold_weak_ind
           (fun r m => r !! k = match d !! k with
                                | Some v => Some (default v (m !! k))
                                | None => None
                                end)).
  - rewrite lookup_empty. now destruct (d !! k).
  - intros i x m r Hi IH.
    rewrite override_item_lookup, IH, lookup_insert.
    destruct (d !! k) as [v |]; [| reflexivity].
    destruct (decide (i = k)) as [<- | Hne]; [reflexivity |].
    reflexivity.
Qed.

(** X2.  For a positive opening angle, a larger positive [N_sigma] gives
    a strictly smaller scale: with [0 < N1 < N2] both condition
    functions return, and the second scale is below the first. *)
Theorem larger_N_sigma_tightens_scale :
  forall minimum maximum name latex_label unit boundary
         (reference_params kwargs : gmap string R) (thetaCore N1 N2 : R),
    0 < thetaCore -> 0 < N1 -> N1 < N2 ->
    kwargs !! "thetaCore"%string = Some thetaCore ->
    exists sigma1 sigma2,
      _condition_function
        (init minimum maximum name N1 latex_label unit boundary)
        reference_params kwargs = Return {[ "sigma"%string := sigma1 ]}
      /\ _condition_function
           (init minimum maximum name N2 latex_label unit boundary)
           reference_params kwargs = Return {[ "sigma"%string := sigma2 ]}
      /\ 0 < sigma2 < sigma1.
Proof.
  intros lo hi nm lbl un bd ref kw theta N1 N2 Htheta HN1 HN12 Hkw.
  exists (theta / N1), (theta / N2).
  rewrite !condition_function_cases, Hkw.
  destruct (Req_dec_T N1 0); [lra |]. destruct (Req_dec_T N2 0); [lra |].
  split; [reflexivity |]. split; [reflexivity |].
  assert (0 < / N2) by (apply Rinv_0_lt_compat; lra).
  assert (/ N2 < / N1) by (apply Rinv_lt_contravar; nra).
  unfold Rdiv. split; nra.
Qed.

Lemma larger_N_sigma_tightens_scale_witness :
  exists sigma1 sigma2,
    _condition_function (init 0 (PI / 2) None 1 None None None) ∅
      {[ "thetaCore"%string := 0.1 ]} = Return {[ "sigma"%string := sigma1 ]}
    /\ _condition_function (init 0 (PI / 2) None 2 None None None) ∅
         {[ "thetaCore"%string := 0.1 ]} = Return {[ "sigma"%string := sigma2 ]}
    /\ 0 < sigma2 < sigma1.
Proof.
  apply (larger_N_sigma_tightens_scale 0 (PI / 2) None None None None ∅
           {[ "thetaCore"%string := 0.1 ]} 0.1 1 2); try lra.
  reflexivity.
Defined.

(** X3.  The condition function reads nothing but [N_sigma] and the
    keyword ['thetaCore']: two calls that agree on these have the same
    outcome, whatever the bounds, the reference parameters and the other
    keywords are; and a returned dict has ['sigma'] as its only key. *)
Theorem condition_function_reads_thetaCore_only :
  forall minimum maximum name latex_label unit boundary
         minimum' maximum' name' latex_label' unit' boundary' N_sigma
         (reference_params reference_params' kwargs kwargs' : gmap string R),
    kwargs !! "thetaCore"%string = kwargs' !! "thetaCore"%string ->
    _condition_function
      (init minimum maximum name N_sigma latex_label unit boundary)
      reference_params kwargs
    = _condition_function
        (init minimum' maximum' name' N_sigma latex_label' unit' boundary')
        reference_params' kwargs'
    /\ forall parameters,
         _condition_function
           (init minimum maximum name N_sigma latex_label unit boundary)
           reference_params kwargs = Return parameters ->
         dom parameters = {[ "sigma"%string ]}.
Proof.
  intros lo hi nm lbl un bd lo' hi' nm' lbl' un' bd' N ref ref' kw kw' Hkw.
  rewrite !condition_function_cases, Hkw. split; [reflexivity |].
  intros parameters H.
  destruct (Req_dec_T N 0); [discriminate |].
  destruct (kw' !! "thetaCore"%string); [| discriminate].
  injection H as <-. apply dom_singleton_L.
Qed.

Lemma condition_function_reads_thetaCore_only_witness :
  _condition_function (init 0 1 None 2 None None None) ∅
    {[ "thetaCore"%string := 0.1 ]}
  = _condition_function (init (-1) 3 (Some "iota"%string) 2 None None None)
      {[ "sigma"%string := 7 ]}
      {[ "thetaCore"%string := 0.1; "thetaObs"%string := 0.4 ]}.
Proof.
  apply (condition_function_reads_thetaCore_only 0 1 None None None None
           (-1) 3 (Some "iota"%string) None None None 2 ∅
           {[ "sigma"%string := 7 ]} {[ "thetaCore"%string := 0.1 ]}
           {[ "thetaCore"%string := 0.1; "thetaObs"%string := 0.4 ]}).
  reflexivity.
Defined.

(** ** The conversion function *)

Lemma linear_value_insert_other parameters param k v :
  param <> k -> ("log10_" +:+ param) <> k ->
  linear_value (<[k := v]> parameters) param = linear_value parameters param.
Proof.
  intros H1 H2. unfold linear_value.
  now rewrite !lookup_insert_ne by congruence.
Qed.

(** The outcome of [convert_mtot_mni] on any sample. *)
Lemma convert_mtot_mni_outcome (parameters : gmap string R) :
  convert_mtot_mni parameters
  = match linear_value parameters "mni" with
    | None => Raise (KeyError "log10_mni")
    | Some mni =>
      match linear_value parameters "mtot" with
      | None => Raise (KeyError "log10_mtot")
      | Some mtot =>
        match linear_value parameters "mrp" with
        | None => Raise (KeyError "log10_mrp")
        | Some mrp =>
          if Req_dec_T mtot 0 then Raise ZeroDivisionError
          else match parameters !! "xmix"%string with
               | None => Raise (KeyError "xmix")
               | Some xmix => Return (converted parameters mni mtot mrp xmix)
               end
        end
      end
    end.
Proof.
  unfold convert_mtot_mni, for_each_param.
  destruct (linear_value parameters "mni") as [mni |] eqn:Emni;
    [| now rewrite (fill_linear_missing _ _ Emni)].
  rewrite (fill_linear_value _ _ _ Emni), bind_Return_l.
  assert (Emtot' : linear_value (<["mni"%string := mni]> parameters) "mtot"
                   = linear_value parameters "mtot")
    by (apply linear_value_insert_other; discriminate).
  destruct (linear_value parameters "mtot") as [mtot |] eqn:Emtot;
    [| now rewrite (fill_linear_missing _ _ Emtot')].
  rewrite (fill_linear_value _ _ _ Emtot'), bind_Return_l.
  assert (Emrp' : linear_value
                    (<["mtot"%string := mtot]>
                       (<["mni"%string := mni]> parameters)) "mrp"
                  = linear_value parameters "mrp")
    by (rewrite !linear_value_insert_other by discriminate; reflexivity).
  destruct (linear_value parameters "mrp") as [mrp |] eqn:Emrp;
    [| now rewrite (fill_linear_missing _ _ Emrp')].
  rewrite (fill_linear_value _ _ _ Emrp'), !bind_Return_l.
  unfold py_getitem.
  repeat (rewrite ?lookup_insert_eq;
          rewrite ?lookup_insert_ne by discriminate).
  rewrite !bind_Return_l.
  unfold py_truediv. destruct (Req_dec_T mtot 0); [reflexivity |].
  rewrite bind_Return_l.
  repeat (rewrite ?lookup_insert_eq;
          rewrite ?lookup_insert_ne by discriminate).
  destruct (parameters !! "xmix"%string) as [xmix |]; [| reflexivity].
  rewrite !bind_Return_l.
  repeat (rewrite ?lookup_insert_eq;
          rewrite ?lookup_insert_ne by discriminate).
  reflexivity.
Qed.


(** X4.  [convert_mtot_mni] returns exactly when each of mni, mtot and
    mrp is present or has its log10 counterpart, the value of mtot is not
    zero, and xmix is present: these conditions are necessary for a
    return, and under them the function returns the sample with the
    three linear parameters, mni_c and mrp_c set. *)
Theorem convert_mtot_mni_returns_iff :
  forall parameters : gmap string R,
    ((exists out, convert_mtot_mni parameters = Return out)
     <-> exists mni mtot mrp xmix,
           linear_value parameters "mni" = Some mni
           /\ linear_value parameters "mtot" = Some mtot
           /\ linear_value parameters "mrp" = Some mrp
           /\ mtot <> 0
           /\ parameters !! "xmix"%string = Some xmix)
    /\ forall mni mtot mrp xmix,
         linear_value parameters "mni" = Some mni ->
         linear_value parameters "mtot" = Some mtot ->
         linear_value parameters "mrp" = Some mrp ->
         mtot <> 0 ->
         parameters !! "xmix"%string = Some xmix ->
         convert_mtot_mni parameters
         = Return (converted parameters mni mtot mrp xmix).
Proof.
  intros parameters.
  assert (Hsuff : forall mni mtot mrp xmix,
            linear_value parameters "mni" = Some mni ->
            linear_value parameters "mtot" = Some mtot ->
            linear_value parameters "mrp" = Some mrp ->
            mtot <> 0 ->
            parameters !! "xmix"%string = Some xmix ->
            convert_mtot_mni parameters
            = Return (converted parameters mni mtot mrp xmix)).
  { intros mni mtot mrp xmix Hmni Hmtot Hmrp Hnz Hxmix.
    rewrite convert_mtot_mni_outcome, Hmni, Hmtot, Hmrp, Hxmix.
    destruct (Req_dec_T mtot 0); [contradiction | reflexivity]. }
  split; [| exact Hsuff]. split.
  - intros [out H]. rewrite convert_mtot_mni_outcome in H.
    destruct (linear_value parameters "mni") as [mni |]; [| discriminate].
    destruct (linear_value parameters "mtot") as [mtot |]; [| discriminate].
    destruct (linear_value parameters "mrp") as [mrp |]; [| discriminate].
    destruct (Req_dec_T mtot 0) as [Hz | Hnz]; [discriminate |].
    destruct (parameters !! "xmix"%string) as [xmix |]; [| discriminate].
    exists mni, mtot, mrp, xmix. repeat split; auto.
  - intros (mni & mtot & mrp & xmix & Hmni & Hmtot & Hmrp & Hnz & Hxmix).
    eexists. apply (Hsuff mni mtot mrp xmix); assumption.
Qed.

Lemma convert_mtot_mni_returns_iff_witness :
  let parameters : gmap string R :=
    {[ "log10_mni"%string := -1; "mtot"%string := 2;
       "log10_mrp"%string := -2; "xmix"%string := 0.5 ]} in
  convert_mtot_mni parameters
  = Return (converted parameters (Rpower 10 (-1)) 2 (Rpower 10 (-2)) 0.5).
Proof.
  intros parameters.
  apply (convert_mtot_mni_returns_iff parameters); try reflexivity. lra.
Defined.



Lemma convert_mtot_mni_Return_inv (parameters out : gmap string R) :
  convert_mtot_mni parameters = Return out ->
  exists mni mtot mrp xmix,
    linear_value parameters "mni" = Some mni
    /\ linear_value parameters "mtot" = Some mtot
    /\ linear_value parameters "mrp" = Some mrp
    /\ mtot <> 0
    /\ parameters !! "xmix"%string = Some xmix
    /\ out = converted parameters mni mtot mrp xmix.
Proof.
  rewrite convert_mtot_mni_outcome.
  destruct (linear_value parameters "mni") as [mni |]; [| discriminate].
  destruct (linear_value parameters "mtot") as [mtot |]; [| discriminate].
  destruct (linear_value parameters "mrp") as [mrp |]; [| discriminate].
  destruct (Req_dec_T mtot 0) as [Hz | Hnz]; [discriminate |].
  destruct (parameters !! "xmix"%string) as [xmix |]; [| discriminate].
  intros H. injection H as <-. exists mni, mtot, mrp, xmix. auto 10.
Qed.

Lemma converted_lookup parameters mni mtot mrp xmix k :
  converted parameters mni mtot mrp xmix !! k
  = if decide ("mrp_c"%string = k) then Some (xmix * (mtot - mni) - mrp)
    else if decide ("mni_c"%string = k) then Some (mni / mtot)
    else if decide ("mrp"%string = k) then Some mrp
    else if decide ("mtot"%string = k) then Some mtot
    else if decide ("mni"%string = k) then Some mni
    else parameters !! k.
Proof. unfold converted. now rewrite !lookup_insert. Qed.

Lemma linear_value_present parameters param v :
  parameters !! param = Some v -> linear_value parameters param = Some v.
Proof. intros H. unfold linear_value. now rewrite H. Qed.

(** X6.  [convert_mtot_mni] is idempotent: applied to a sample it has
    returned, it returns that sample again. *)
Theorem convert_mtot_mni_idempotent :
  forall parameters out : gmap string R,
    convert_mtot_mni parameters = Return out ->
    convert_mtot_mni out = Return out.
Proof.
  intros parameters out H.
  apply convert_mtot_mni_Return_inv in H
    as (mni & mtot & mrp & xmix & _ & _ & _ & Hnz & Hxmix & ->).
  rewrite convert_mtot_mni_outcome.
  rewrite (linear_value_present _ "mni" mni)
    by (rewrite converted_lookup; reflexivity).
  rewrite (linear_value_present _ "mtot" mtot)
    by (rewrite converted_lookup; reflexivity).
  rewrite (linear_value_present _ "mrp" mrp)
    by (rewrite converted_lookup; reflexivity).
  destruct (Req_dec_T mtot 0); [contradiction |].
  assert (Hx : converted parameters mni mtot mrp xmix !! "xmix"%string
               = Some xmix) by (rewrite converted_lookup; exact Hxmix).
  rewrite Hx. f_equal.
  apply map_eq. intros k. rewrite converted_lookup.
  repeat case_decide; subst; rewrite converted_lookup; try reflexivity;
    repeat case_decide; congruence.
Qed.

Lemma convert_mtot_mni_idempotent_witness :
  let parameters : gmap string R :=
    {[ "log10_mni"%string := -1; "mtot"%string := 2;
       "log10_mrp"%string := -2; "xmix"%string := 0.5 ]} in
  let out := converted parameters (Rpower 10 (-1)) 2 (Rpower 10 (-2)) 0.5 in
  convert_mtot_mni parameters = Return out
  /\ convert_mtot_mni out = Return out.
Proof.
  intros parameters out.
  assert (Hrun : convert_mtot_mni parameters = Return out).
  { rewrite convert_mtot_mni_outcome.
    assert (H1 : linear_value parameters "mni" = Some (Rpower 10 (-1)))
      by reflexivity.
    assert (H2 : linear_value parameters "mtot" = Some 2) by reflexivity.
    assert (H3 : linear_value parameters "mrp" = Some (Rpower 10 (-2)))
      by reflexivity.
    assert (H4 : parameters !! "xmix"%string = Some 0.5) by reflexivity.
    rewrite H1, H2, H3, H4.
    destruct (Req_dec_T 2 0); [lra | reflexivity]. }
  split; [exact Hrun |].
  exact (convert_mtot_mni_idempotent parameters out Hrun).
Defined.

(** X7.  When [convert_mtot_mni] returns, the sample it returns binds
    mni, mtot, mrp, mni_c and mrp_c, keeps every linear parameter that
    was present at its value, and agrees with the input on every other
    key (the log10 parameters and xmix among them). *)
Theorem convert_mtot_mni_frame :
  forall parameters out : gmap string R,
    convert_mtot_mni parameters = Return out ->
    (forall key,
       key ∈ ["mni"; "mtot"; "mrp"; "mni_c"; "mrp_c"]%string ->
       is_Some (out !! key))
    /\ (forall param v,
          param ∈ ["mni"; "mtot"; "mrp"]%string ->
          parameters !! param = Some v -> out !! param = Some v)
    /\ (forall key,
          key ∉ ["mni"; "mtot"; "mrp"; "mni_c"; "mrp_c"]%string ->
          out !! key = parameters !! key).
Proof.
  intros parameters out H.
  apply convert_mtot_mni_Return_inv in H
    as (mni & mtot & mrp & xmix & Hmni & Hmtot & Hmrp & _ & _ & ->).
  split; [| split].
  - intros key Hkey. rewrite converted_lookup.
    repeat case_decide; eauto.
    apply list_elem_of_In in Hkey. simpl in Hkey. intuition congruence.
  - intros param v Hparam Hv. rewrite converted_lookup.
    apply linear_value_present in Hv.
    apply list_elem_of_In in Hparam. simpl in Hparam.
    repeat case_decide; subst; try congruence; intuition congruence.
  - intros key Hkey. rewrite converted_lookup.
    repeat case_decide; subst; try reflexivity;
      exfalso; apply Hkey, list_elem_of_In; simpl; tauto.
Qed.

Lemma convert_mtot_mni_frame_witness :
  let parameters : gmap string R :=
    {[ "log10_mni"%string := -1; "mtot"%string := 2;
       "log10_mrp"%string := -2; "xmix"%string := 0.5 ]} in
  let out := converted parameters (Rpower 10 (-1)) 2 (Rpower 10 (-2)) 0.5 in
  convert_mtot_mni parameters = Return out
  /\ out !! "mtot"%string = Some 2.
Proof.
  intros parameters out.
  assert (Hrun : convert_mtot_mni parameters = Return out).
  { rewrite convert_mtot_mni_outcome.
    assert (H1 : linear_value parameters "mni" = Some (Rpower 10 (-1)))
      by reflexivity.
    assert (H2 : linear_value parameters "mtot" = Some 2) by reflexivity.
    assert (H3 : linear_value parameters "mrp" = Some (Rpower 10 (-2)))
      by reflexivity.
    assert (H4 : parameters !! "xmix"%string = Some 0.5) by reflexivity.
    rewrite H1, H2, H3, H4.
    destruct (Req_dec_T 2 0); [lra | reflexivity]. }
  split; [exact Hrun |].
  destruct (convert_mtot_mni_frame parameters out Hrun) as (_ & Hkeep & _).
  apply Hkeep; [apply list_elem_of_In; simpl; tauto | reflexivity].
Defined.

(** ** Prior construction *)

(** X8.  When no model name belongs to the AnBa2022 family, the base load
    reads the prior file and, unless the reader raises, returns the
    gravitational-wave dictionary class with the library's default
    conversion; an exception of the reader is passed on unchanged. *)
Theorem other_models_load_default_conversion :
  forall (load_prior_file : string -> Py (gmap string Prior))
         model_names args,
    (forall m, m ∈ model_names -> ~ AnBa2022_family m) ->
    load_base_prior load_prior_file model_names args
    = match load_prior_file (prior args) with
      | Return loaded =>
          Return {| dict_class := GWPriorDict; entries := loaded;
                    conversion_function := default_conversion |}
      | Raise e => Raise e
      end.
Proof.
  intros lpf model_names args Hnone. unfold load_base_prior.
  destruct (Nat.ltb 0 (length (AnBa2022_intersect model_names))) eqn:E.
  - apply AnBa2022_intersect_nonempty in E as (m & Hin & Hfam).
    now destruct (Hnone m Hin).
  - now destruct (lpf (prior args)).
Qed.

Lemma other_models_load_default_conversion_witness :
  load_base_prior (fun _ => Return (∅ : gmap string Prior))
    ["Bu2019lm"; "TrPi2018"]%string
    (mkArgs "kn.prior" 0 false false 1 None None None 10)
  = Return {| dict_class := GWPriorDict; entries := ∅;
              conversion_function := default_conversion |}.
Proof.
  apply (other_models_load_default_conversion
           (fun _ => Return (∅ : gmap string Prior))
           ["Bu2019lm"; "TrPi2018"]%string
           (mkArgs "kn.prior" 0 false false 1 None None None 10)).
  intros m Hin [-> | ->]; apply list_elem_of_In in Hin; simpl in Hin;
    intuition discriminate.
Defined.

(** X9.  An Ebv entry read from the prior file is never replaced: when
    construction returns, the entry under ['Ebv'] is the loaded one,
    whatever [use_Ebv] and [Ebv_max] are. *)
Theorem loaded_Ebv_is_kept :
  forall load_prior_file read_sky_map model_names args base priors' p,
    load_prior_file (prior args) = Return base ->
    base !! "Ebv"%string = Some p ->
    create_prior_from_args load_prior_file read_sky_map model_names args
      = Return priors' ->
    entries priors' !! "Ebv"%string = Some p.
Proof.
  intros lpf rsm model_names args base priors' p
         Hload Hp Hcreate.
  destruct (create_prior_Ebv_entry _ _ _ _ _ _ Hload Hcreate)
    as (priors & Hbase & Hentry).
  rewrite Hentry, (setup_Ebv_present priors args p), Hbase by
    (rewrite Hbase; exact Hp).
  exact Hp.
Qed.

Lemma loaded_Ebv_is_kept_witness :
  let own := Loaded "Ebv" 0 0.5 None None None None in
  let load := fun _ : string =>
                Return ({[ "Ebv"%string := own ]} : gmap string Prior) in
  let args := mkArgs "kn.prior" 2 true false 1 None None None 10 in
  exists priors',
    create_prior_from_args load (fun _ => Raise (ExternalError "no sky map"))
      ["Bu2019lm"%string] args = Return priors'
    /\ entries priors' !! "Ebv"%string = Some own.
Proof.
  intros own load args.
  exists {| dict_class := GWPriorDict; entries := {[ "Ebv"%string := own ]};
            conversion_function := default_conversion |}.
  assert (Hrun : create_prior_from_args load
            (fun _ => Raise (ExternalError "no sky map"))
            ["Bu2019lm"%string] args
          = Return {| dict_class := GWPriorDict;
                      entries := {[ "Ebv"%string := own ]};
                      conversion_function := default_conversion |})
    by reflexivity.
  split; [exact Hrun |].
  exact (loaded_Ebv_is_kept load _ ["Bu2019lm"%string] args
           {[ "Ebv"%string := own ]} _ own eq_refl eq_refl Hrun).
Defined.

(** The decaying table for any positive [Ebv_max]. *)
Lemma Ebv_decay_density Ebv_max x :
  0 < Ebv_max -> 0 <= x <= Ebv_max ->
  table_density (Ebv_decay Ebv_max) x = 2 / Ebv_max * (1 - x / Ebv_max).
Proof.
  intros HM [H0 H1]. simpl.
  destruct (Rle_dec 0 x); [| contradiction].
  destruct (Rle_dec x Ebv_max); [| contradiction].
  replace 0.5 with (/ 2) by lra. field. lra.
Qed.

(** X10.  For every positive [Ebv_max], with [use_Ebv] set and no Ebv
    entry loaded, the entry stored is the table on [[0, Ebv_max]] whose
    density [2 / Ebv_max * (1 - x / Ebv_max)] is strictly decreasing on
    the support, starts at [2 / Ebv_max], ends at 0 and has trapezoidal
    integral 1. *)
Theorem Ebv_decay_is_normalized_for_every_maximum :
  forall load_prior_file read_sky_map model_names args base priors',
    load_prior_file (prior args) = Return base ->
    base !! "Ebv"%string = None ->
    use_Ebv args = true ->
    0 < Ebv_max args ->
    create_prior_from_args load_prior_file read_sky_map model_names args
      = Return priors' ->
    entries priors' !! "Ebv"%string = Some (Ebv_decay (Ebv_max args))
    /\ (forall x, in_support (Ebv_decay (Ebv_max args)) x
                  <-> 0 <= x <= Ebv_max args)
    /\ (forall x, 0 <= x <= Ebv_max args ->
          table_density (Ebv_decay (Ebv_max args)) x
          = 2 / Ebv_max args * (1 - x / Ebv_max args))
    /\ (forall x y, 0 <= x -> x < y -> y <= Ebv_max args ->
          table_density (Ebv_decay (Ebv_max args)) y
          < table_density (Ebv_decay (Ebv_max args)) x)
    /\ np_trapz [1 / (0.5 * Ebv_max args); 0] [0; Ebv_max args] = Return 1.
Proof.
  intros lpf rsm model_names args base priors'
         Hload Habs Hflag Hpos Hcreate.
  destruct (create_prior_Ebv_entry _ _ _ _ _ _ Hload Hcreate)
    as (priors & Hbase & Hentry).
  rewrite Hentry, setup_Ebv_absent, Hflag by now rewrite Hbase.
  destruct (Rgt_dec (Ebv_max args) 0); [| lra].
  set (M := Ebv_max args) in *.
  split; [reflexivity |]. split; [intros x; reflexivity |].
  split; [intros x Hx; now apply Ebv_decay_density |].
  split.
  - intros x y Hx Hxy Hy. rewrite !Ebv_decay_density by lra.
    assert (0 < 2 / M) by (apply Rdiv_lt_0_compat; lra).
    assert (x / M < y / M).
    { unfold Rdiv. apply Rmult_lt_compat_r; [apply Rinv_0_lt_compat |]; lra. }
    nra.
  - unfold np_trapz. simpl. f_equal.
    replace 0.5 with (/ 2) by lra. field. lra.
Qed.

Lemma Ebv_decay_is_normalized_for_every_maximum_witness :
  let load := fun _ : string => Return (∅ : gmap string Prior) in
  let args := mkArgs "kn.prior" 0.8 true false 1 None None None 10 in
  np_trapz [1 / (0.5 * 0.8); 0] [0; 0.8] = Return 1.
Proof.
  intros load args.
  eapply (Ebv_decay_is_normalized_for_every_maximum load
            (fun _ => Raise (ExternalError "no sky map"))
            ["Bu2019lm"%string] args ∅);
    try reflexivity.
  simpl. lra.
Defined.

(** X11.  The conditional substitution, when the flag is set and the
    dictionary has an inclination entry with bounds: the entry is
    replaced by the conditional prior with the same bounds and name and
    the [N_sigma] of the arguments, whose required variable is
    ['thetaCore'] and whose scale, for a non-zero [N_sigma], is
    [thetaCore / N_sigma]; the other entries are kept. *)
Theorem conditional_substitution_keeps_bounds :
  forall priors args original lower upper,
    conditional_gaussian_prior_thetaObs args = true ->
    entries priors !! "inclination_EM"%string = Some original ->
    prior_minimum original = Return lower ->
    prior_maximum original = Return upper ->
    exists p priors',
      setup_conditional_inclination priors args = Return priors'
      /\ entries priors' !! "inclination_EM"%string = Some (ConditionalIota p)
      /\ (forall key, key <> "inclination_EM"%string ->
            entries priors' !! key = entries priors !! key)
      /\ minimum p = lower /\ maximum p = upper
      /\ name p = prior_name original
      /\ N_sigma p = conditional_gaussian_prior_N_sigma args
      /\ _required_variables p = ["thetaCore"%string]
      /\ forall (reference_params kwargs : gmap string R) thetaCore,
           conditional_gaussian_prior_N_sigma args <> 0 ->
           kwargs !! "thetaCore"%string = Some thetaCore ->
           _condition_function p reference_params kwargs
           = Return {[ "sigma"%string :=
                         thetaCore / conditional_gaussian_prior_N_sigma args ]}.
Proof.
  intros priors args original lower upper Hflag Horig Hlo Hhi.
  eexists _, _. split.
  { unfold setup_conditional_inclination.
    rewrite Hflag, (py_getitem_Some _ _ _ Horig), bind_Return_l.
    rewrite Hlo, bind_Return_l, Hhi, bind_Return_l. reflexivity. }
  simpl. split; [apply lookup_insert_eq |].
  split; [intros key Hkey; now rewrite lookup_insert_ne |].
  repeat (split; [reflexivity |]).
  intros ref kw theta HN Hkw.
  rewrite condition_function_cases, Hkw.
  destruct (Req_dec_T _ 0); [contradiction | reflexivity].
Qed.

Lemma conditional_substitution_keeps_bounds_witness :
  let original := Loaded "inclination_EM" 0 (PI / 2) None None None None in
  let priors := {| dict_class := GWPriorDict;
                   entries := {[ "inclination_EM"%string := original ]};
                   conversion_function := default_conversion |} in
  let args := mkArgs "kn.prior" 0 false true 2 None None None 10 in
  exists p priors',
    setup_conditional_inclination priors args = Return priors'
    /\ entries priors' !! "inclination_EM"%string = Some (ConditionalIota p)
    /\ minimum p = 0 /\ maximum p = PI / 2.
Proof.
  intros original priors args.
  destruct (conditional_substitution_keeps_bounds priors args original 0
              (PI / 2) eq_refl eq_refl eq_refl eq_refl)
    as (p & priors' & Hrun & Hentry & _ & Hlo & Hhi & _).
  exists p, priors'. auto.
Defined.

(** X12.  The conditional substitution builds its dictionary from the
    entries alone: the dictionary it returns carries the default
    conversion, also when the one it was given carried
    [convert_mtot_mni]. *)
Theorem conditional_substitution_drops_conversion :
  forall priors args priors',
    conditional_gaussian_prior_thetaObs args = true ->
    setup_conditional_inclination priors args = Return priors' ->
    dict_class priors' = GWConditionalPriorDict
    /\ conversion_function priors' = default_conversion.
Proof.
  intros priors args priors' Hflag H.
  unfold setup_conditional_inclination in H. rewrite Hflag in H.
  bind_inv H as orig Horig. bind_inv H as mn Hmn. bind_inv H as mx Hmx.
  injection H as <-. split; reflexivity.
Qed.

Lemma conditional_substitution_drops_conversion_witness :
  let original := Loaded "inclination_EM" 0 (PI / 2) None None None None in
  let priors := {| dict_class := CorePriorDict;
                   entries := {[ "inclination_EM"%string := original ]};
                   conversion_function := convert_mtot_mni_function |} in
  let args := mkArgs "kn.prior" 0 false true 2 None None None 10 in
  exists priors',
    setup_conditional_inclination priors args = Return priors'
    /\ conversion_function priors' = default_conversion.
Proof.
  intros original priors args.
  eexists. split; [reflexivity |].
  eapply (conditional_substitution_drops_conversion priors args);
    reflexivity.
Defined.

(** X13.  With the conditional flag set and no inclination entry in the
    prior file, construction raises [KeyError] for ['inclination_EM']:
    the Ebv step does not supply one. *)
Theorem conditional_needs_inclination_entry :
  forall load_prior_file read_sky_map model_names args base,
    load_prior_file (prior args) = Return base ->
    base !! "inclination_EM"%string = None ->
    conditional_gaussian_prior_thetaObs args = true ->
    create_prior_from_args load_prior_file read_sky_map model_names args
    = Raise (KeyError "inclination_EM").
Proof.
  intros lpf rsm model_names args base Hload Habs Hflag.
  unfold create_prior_from_args, load_base_prior.
  assert (Hstep : forall priors,
            entries priors = base ->
            setup_conditional_inclination (setup_Ebv priors args) args
            = Raise (KeyError "inclination_EM")).
  { intros priors Hbase. unfold setup_conditional_inclination.
    rewrite Hflag, py_getitem_None; [reflexivity |].
    unfold setup_Ebv.
    destruct (entries priors !! "Ebv"%string); [now rewrite Hbase |].
    destruct (_ && _); simpl;
      rewrite lookup_insert_ne by discriminate; now rewrite Hbase. }
  destruct (Nat.ltb 0 (length (AnBa2022_intersect model_names)));
    rewrite Hload, !bind_Return_l; cbv zeta;
    rewrite Hstep by reflexivity; reflexivity.
Qed.

Lemma conditional_needs_inclination_entry_witness :
  create_prior_from_args (fun _ => Return (∅ : gmap string Prior))
    (fun _ => Raise (ExternalError "no sky map")) ["Bu2019lm"%string]
    (mkArgs "kn.prior" 2 true true 2 None None None 10)
  = Raise (KeyError "inclination_EM").
Proof.
  apply (conditional_needs_inclination_entry
           (fun _ => Return (∅ : gmap string Prior)) _
           ["Bu2019lm"%string]
           (mkArgs "kn.prior" 2 true true 2 None None None 10) ∅);
    reflexivity.
Defined.

(** X14.  Without a sky-map file ([fits_file] absent or the empty
    string) construction never calls the sky-map reader: its outcome is
    the same for any two readers. *)
Theorem no_fits_file_no_sky_map_calls :
  forall load_prior_file model_names args read_sky_map read_sky_map',
    fits_file args = None \/ fits_file args = Some ""%string ->
    create_prior_from_args load_prior_file read_sky_map model_names args
    = create_prior_from_args load_prior_file read_sky_map' model_names args.
Proof.
  intros lpf model_names args rsm rsm' Hfits.
  unfold create_prior_from_args.
  assert (Hfalse : truthy_str (fits_file args) = false)
    by (destruct Hfits as [-> | ->]; reflexivity).
  rewrite Hfalse. reflexivity.
Qed.

Lemma no_fits_file_no_sky_map_calls_witness :
  create_prior_from_args (fun _ => Return (∅ : gmap string Prior))
    (fun _ => Raise (ExternalError "no sky map")) ["Bu2019lm"%string]
    (mkArgs "kn.prior" 2 true false 2 (Some ""%string) None None 10)
  = create_prior_from_args (fun _ => Return (∅ : gmap string Prior))
      (fun _ => Return [flat_row]) ["Bu2019lm"%string]
      (mkArgs "kn.prior" 2 true false 2 (Some ""%string) None None 10).
Proof.
  apply no_fits_file_no_sky_map_calls. right. reflexivity.
Defined.

(** ** Construction with a sky-map file *)



(** ** The training driver, continued *)

Section TrainingDriverRuns.

Variables Data TrainingData TrainingModel LightCurveModel : Type.
Variable model_parameters : gmap string (ModuleAttr Data TrainingData).
Variable np_arange : R -> R -> R -> Py (list R).
Variable glob_glob : string -> list string.
Variable read_files : list string -> Py Data.
Variable SVDTrainingModel :
  string -> TrainingData -> list R -> list string -> Z -> Z ->
  option string -> string -> Py TrainingModel.
Variable SVDLightCurveModel :
  string -> list R -> option string -> Z -> string -> TrainingModel ->
  Py LightCurveModel.
Variable plot_comparison :
  DriverArgs -> TrainingData -> TrainingModel -> LightCurveModel ->
  list R -> list string -> Py ().

(** X23.  For a recognized model whose outside calls all return, the
    driver returns after making each call once, in the order of the
    source: file listing, reading, the model function, training, the
    load of the light-curve model, and the comparison plot last and only
    when [plot] is set. *)
Theorem main_calls_in_source_order :
  forall args log model_function sample_times data training_data
         training_model light_curve_model,
    MODEL_FUNCTIONS Data TrainingData model_parameters !! model args
      = Some model_function ->
    np_arange (tmin args) (tmax args + dt args) (dt args) = Return sample_times ->
    read_files (glob_glob (format_opt (data_path args) +:+ "/*.dat"))
      = Return data ->
    model_function data = Return training_data ->
    SVDTrainingModel (model args) training_data sample_times
      (split_on ","%char (filters args))
      (svd_ncoeff args) (tensorflow_nepochs args) (svd_path args)
      (interpolation_type args) = Return training_model ->
    SVDLightCurveModel (model args) sample_times (svd_path args)
      (svd_ncoeff args) (interpolation_type args) training_model
      = Return light_curve_model ->
    plot_comparison args training_data training_model light_curve_model
      sample_times (split_on ","%char (filters args)) = Return () ->
    main Data TrainingData TrainingModel LightCurveModel model_parameters
      np_arange glob_glob read_files SVDTrainingModel SVDLightCurveModel
      plot_comparison args log
    = (Return (),
       log ++ training_calls args
                (glob_glob (format_opt (data_path args) +:+ "/*.dat"))
           ++ (if plot args then [PlotComparison] else [])).
Proof.
  intros args log model_function sample_times data training_data
         training_model light_curve_model Hfun Hts Hread Hmf Htrain Hlc Hplot.
  unfold main, mbind, driver_bind, pure, call, training_calls.
  rewrite Hts, Hfun, Hread, Hmf, Htrain, Hlc.
  destruct (plot args).
  - rewrite Hplot. now rewrite <- !app_assoc.
  - unfold mret, driver_ret. now rewrite <- !app_assoc, app_nil_r.
Qed.

(** X24.  A failing call ends the driver there: when reading the files
    raises, the model function is not called; when the model function
    raises, nothing is trained; when training raises, no light-curve
    model is loaded.  In each case the exception is passed on unchanged
    and the calls made are those up to the failing one. *)
Theorem main_stops_at_first_failure :
  forall args log model_function sample_times e,
    MODEL_FUNCTIONS Data TrainingData model_parameters !! model args
      = Some model_function ->
    np_arange (tmin args) (tmax args + dt args) (dt args) = Return sample_times ->
    let filenames := glob_glob (format_opt (data_path args) +:+ "/*.dat") in
    let run :=
      main Data TrainingData TrainingModel LightCurveModel model_parameters
        np_arange glob_glob read_files SVDTrainingModel SVDLightCurveModel
        plot_comparison args log in
    (read_files filenames = Raise e ->
       run = (Raise e, log ++ take 2 (training_calls args filenames)))
    /\ (forall data,
          read_files filenames = Return data ->
          model_function data = Raise e ->
          run = (Raise e, log ++ take 3 (training_calls args filenames)))
    /\ (forall data training_data,
          read_files filenames = Return data ->
          model_function data = Return training_data ->
          SVDTrainingModel (model args) training_data sample_times
            (split_on ","%char (filters args))
            (svd_ncoeff args) (tensorflow_nepochs args) (svd_path args)
            (interpolation_type args) = Raise e ->
          run = (Raise e, log ++ take 4 (training_calls args filenames))).
Proof.
  intros args log model_function sample_times e Hfun Hts filenames run.
  unfold run, filenames, main, mbind, driver_bind, pure, call, training_calls.
  rewrite Hts, Hfun. split; [| split].
  - intros Hread. rewrite Hread. now rewrite <- !app_assoc.
  - intros data Hread Hmf. rewrite Hread, Hmf. now rewrite <- !app_assoc.
  - intros data training_data Hread Hmf Htrain.
    rewrite Hread, Hmf, Htrain. now rewrite <- !app_assoc.
Qed.

End TrainingDriverRuns.

Lemma main_calls_in_source_order_witness :
  let module : gmap string (ModuleAttr () ()) :=
    {[ "Bu2019lm"%string := Function () () (fun _ => Return ()) ]} in
  let args :=
    mkDriverArgs "Bu2019lm" (Some "svdmodels"%string) (Some "lcs"%string)
      "sklearn_gp" 0 14 0.1 10 15 "u,g,r" "output" true false in
  main () () () () module (fun _ _ _ => Return [0; 0.1])
    (fun _ => ["lcs/a.dat"%string]) (fun _ => Return ())
    (fun _ _ _ _ _ _ _ _ => Return ()) (fun _ _ _ _ _ _ => Return ())
    (fun _ _ _ _ _ _ => Return ()) args []
  = (Return (),
     [GlobFiles "lcs/*.dat"; ReadFiles ["lcs/a.dat"%string];
      CallModelFunction "Bu2019lm"; TrainModel "Bu2019lm";
      LoadLightCurveModel "Bu2019lm"; PlotComparison]).
Proof.
  intros module args.
  apply (main_calls_in_source_order () () () () module
           (fun _ _ _ => Return [0; 0.1])
           (fun _ => ["lcs/a.dat"%string]) (fun _ => Return ())
           (fun _ _ _ _ _ _ _ _ => Return ()) (fun _ _ _ _ _ _ => Return ())
           (fun _ _ _ _ _ _ => Return ()) args []
           (fun _ => Return ()) [0; 0.1] () () () ());
    reflexivity.
Defined.

Lemma main_stops_at_first_failure_witness :
  let module : gmap string (ModuleAttr () ()) :=
    {[ "Bu2019lm"%string := Function () () (fun _ => Return ()) ]} in
  let args :=
    mkDriverArgs "Bu2019lm" (Some "svdmodels"%string) (Some "lcs"%string)
      "sklearn_gp" 0 14 0.1 10 15 "u,g,r" "output" true false in
  main () () () () module (fun _ _ _ => Return [0; 0.1])
    (fun _ => ["lcs/a.dat"%string])
    (fun _ => Raise (ExternalError "unreadable"))
    (fun _ _ _ _ _ _ _ _ => Return ()) (fun _ _ _ _ _ _ => Return ())
    (fun _ _ _ _ _ _ => Return ()) args []
  = (Raise (ExternalError "unreadable"),
     [GlobFiles "lcs/*.dat"; ReadFiles ["lcs/a.dat"%string]]).
Proof.
  intros module args.
  apply (main_stops_at_first_failure () () () () module
           (fun _ _ _ => Return [0; 0.1])
           (fun _ => ["lcs/a.dat"%string])
           (fun _ => Raise (ExternalError "unreadable"))
           (fun _ _ _ _ _ _ _ _ => Return ()) (fun _ _ _ _ _ _ => Return ())
           (fun _ _ _ _ _ _ => Return ()) args []
           (fun _ => Return ()) [0; 0.1] (ExternalError "unreadable"));
    reflexivity.
Defined.

(** ** Splitting the filter list *)

Lemma split_on_nonempty sep s : split_on sep s <> [].
Proof.
  destruct s as [| c s]; simpl; [discriminate |].
  destruct (Ascii.eqb c sep); [discriminate |].
  destruct (split_on sep s); discriminate.
Qed.

(** X25.  Splitting loses nothing: joining the pieces of [split_on] with
    the separator gives the string back, no piece contains the
    separator, and there is always at least one piece. *)
Theorem split_on_round_trip :
  forall (sep : Ascii.ascii) (s : string),
    String.concat (String sep EmptyString) (split_on sep s) = s
    /\ (forall piece, piece ∈ split_on sep s ->
          ~ In sep (String.list_ascii_of_string piece))
    /\ (1 <= length (split_on sep s))%nat.
Proof.
  intros sep s. split; [| split].
  - induction s as [| c s IH]; [reflexivity |].
    simpl. destruct (Ascii.eqb c sep) eqn:E.
    + apply Ascii.eqb_eq in E as ->.
      pose proof (split_on_nonempty sep s) as Hne.
      simpl. destruct (split_on sep s) as [| h t]; [contradiction |].
      simpl in *. now rewrite IH.
    + pose proof (split_on_nonempty sep s) as Hne.
      destruct (split_on sep s) as [| h t]; [contradiction |].
      simpl in *. destruct t; simpl in *; now rewrite <- IH.
  - induction s as [| c s IH]; intros piece Hin; simpl in Hin.
    + apply list_elem_of_singleton in Hin as ->. simpl. tauto.
    + destruct (Ascii.eqb c sep) eqn:E.
      * apply elem_of_cons in Hin as [-> | Hin]; [simpl; tauto | now apply IH].
      * apply Ascii.eqb_neq in E.
        destruct (split_on sep s) as [| h t].
        -- apply list_elem_of_singleton in Hin as ->. simpl. intuition.
        -- apply elem_of_cons in Hin as [-> | Hin].
           ++ simpl. intros [Hc | Hh]; [congruence |].
              apply (IH h); [left | exact Hh].
           ++ apply IH. now right.
  - pose proof (split_on_nonempty sep s).
    destruct (split_on sep s); [contradiction | simpl; lia].
Qed.
